(** * setlogger: a coloured console / plain file logger

    Shallow embedding of [utils/setlogger.py] together with the part of
    Python's [logging], [time], [os] and [datetime] modules that the
    file drives: level numbers, log records, %-style formatting,
    handlers writing to streams, the logger registry with its dotted-name
    hierarchy, and a small world of files, directories and open streams.

    Python raises where the functions below return [None]. Creating the
    directory and opening the log file are taken to succeed; a logger
    keeps the library's defaults the file never touches (no filters,
    not disabled, [logging.disable] unused). *)

From Stdlib Require Import Ascii.
From stdpp Require Import gmap strings pretty list.


Local Open Scope Z_scope.

(** ** Strings and integer formatting *)

(** The escape character, written [\033] in the source. *)
Definition ESC : ascii := "027"%char.

Definition LF : string := String "010"%char "".

(** [s.rjust(width, "0")] for a string of digits. *)
Definition zfill (width : nat) (s : string) : string :=
  String.concat "" (replicate (width - String.length s) "0"%string) +:+ s.

(** [format(n, "02d")]: the sign counts towards the width. *)
Definition format_02d (n : Z) : string :=
  if decide (n < 0) then "-" +:+ zfill 1 (pretty (- n)) else zfill 2 (pretty n).

(** ** [datetime.date] and [time.struct_time] *)

Record date := Date { year : Z; month : Z; day : Z }.

Definition MINYEAR : Z := 1.
Definition MAXYEAR : Z := 9999.

Definition is_leap (y : Z) : bool :=
  (y mod 4 =? 0) && (negb (y mod 100 =? 0) || (y mod 400 =? 0)).

Definition days_in_month (y m : Z) : Z :=
  if m =? 2 then (if is_leap y then 29 else 28)
  else if (m =? 4) || (m =? 6) || (m =? 9) || (m =? 11) then 30 else 31.

(** What the [date] constructor checks. *)
Definition valid_date (d : date) : Prop :=
  MINYEAR ≤ year d ≤ MAXYEAR ∧ 1 ≤ month d ≤ 12 ∧
  1 ≤ day d ≤ days_in_month (year d) (month d).

Record struct_time := StructTime {
  tm_year : Z; tm_mon : Z; tm_mday : Z;
  tm_hour : Z; tm_min : Z; tm_sec : Z
}.

(** The ranges of the fields [time.localtime] fills in. *)
Definition valid_struct_time (t : struct_time) : Prop :=
  1 ≤ tm_mon t ≤ 12 ∧ 1 ≤ tm_mday t ≤ 31 ∧ 0 ≤ tm_hour t ≤ 23 ∧
  0 ≤ tm_min t ≤ 59 ∧ 0 ≤ tm_sec t ≤ 61.

Definition strftime_directive (c : ascii) (t : struct_time) : option string :=
  if Ascii.eqb c "Y"%char then Some (pretty (tm_year t))
  else if Ascii.eqb c "m"%char then Some (format_02d (tm_mon t))
  else if Ascii.eqb c "d"%char then Some (format_02d (tm_mday t))
  else if Ascii.eqb c "H"%char then Some (format_02d (tm_hour t))
  else if Ascii.eqb c "M"%char then Some (format_02d (tm_min t))
  else if Ascii.eqb c "S"%char then Some (format_02d (tm_sec t))
  else if Ascii.eqb c "%"%char then Some "%"%string
  else None.

(** [time.strftime(fmt, t)] for the directives above; [pct] records that
    the previous character was a percent sign. *)
Fixpoint strftime_go (pct : bool) (fmt : string) (t : struct_time) : option string :=
  match fmt with
  | EmptyString => if pct then None else Some ""%string
  | String c rest =>
      if pct then
        v ← strftime_directive c t;
        (λ s, v +:+ s) <$> strftime_go false rest t
      else if Ascii.eqb c "%"%char then strftime_go true rest t
      else String c <$> strftime_go false rest t
  end.

Definition strftime (fmt : string) (t : struct_time) : option string :=
  strftime_go false fmt t.

(** ** Levels *)

Definition CRITICAL : Z := 50.
Definition ERROR : Z := 40.
Definition WARNING : Z := 30.
Definition INFO : Z := 20.
Definition DEBUG : Z := 10.
Definition NOTSET : Z := 0.

Definition _levelToName : gmap Z string :=
  <[CRITICAL := "CRITICAL"%string]> (<[ERROR := "ERROR"%string]>
  (<[WARNING := "WARNING"%string]> (<[INFO := "INFO"%string]>
  (<[DEBUG := "DEBUG"%string]> (<[NOTSET := "NOTSET"%string]> ∅))))).

Definition getLevelName (level : Z) : string :=
  default ("Level " +:+ pretty level) (_levelToName !! level).

(** The five severities the logger's methods are named after. *)
Inductive Severity := SevDebug | SevInfo | SevWarning | SevError | SevCritical.

Definition severity_level (s : Severity) : Z :=
  match s with
  | SevDebug => DEBUG | SevInfo => INFO | SevWarning => WARNING
  | SevError => ERROR | SevCritical => CRITICAL
  end.

Definition severity_name (s : Severity) : string :=
  match s with
  | SevDebug => "DEBUG" | SevInfo => "INFO" | SevWarning => "WARNING"
  | SevError => "ERROR" | SevCritical => "CRITICAL"
  end.

(** ** Log records *)

(** [created] is the record's creation time after [time.localtime];
    [msg] is the message with its arguments already merged. Records
    carry no exception or stack information. *)
Record LogRecord := mkLogRecord {
  rec_name : string;
  levelno : Z;
  levelname : string;
  msg : string;
  created : struct_time
}.

Definition makeRecord (name : string) (level : Z) (m : string) (now : struct_time)
    : LogRecord :=
  mkLogRecord name level (getLevelName level) m now.

(** ** %-style formatting of a record *)

Inductive fmt_state :=
  | FLit
  | FPercent
  | FKey (key : string)
  | FConv (key : string).

(** [fmt % d] for literal text, [%%] and [%(key)s] conversions. *)
Fixpoint percent_go (st : fmt_state) (fmt : string) (d : gmap string string)
    : option string :=
  match fmt with
  | EmptyString => match st with FLit => Some ""%string | _ => None end
  | String c rest =>
      match st with
      | FLit =>
          if Ascii.eqb c "%"%char then percent_go FPercent rest d
          else String c <$> percent_go FLit rest d
      | FPercent =>
          if Ascii.eqb c "("%char then percent_go (FKey "") rest d
          else if Ascii.eqb c "%"%char then String c <$> percent_go FLit rest d
          else None
      | FKey k =>
          if Ascii.eqb c ")"%char then percent_go (FConv k) rest d
          else percent_go (FKey (k +:+ String c "")) rest d
      | FConv k =>
          if Ascii.eqb c "s"%char then
            v ← d !! k;
            (λ s, v +:+ s) <$> percent_go FLit rest d
          else None
      end
  end.

Definition percent_format (fmt : string) (d : gmap string string) : option string :=
  percent_go FLit fmt d.

(** The attributes of a record that a format string can name. *)
Definition record_dict (r : LogRecord) : gmap string string :=
  <["name" := rec_name r]> (<["levelno" := pretty (levelno r)]>
  (<["levelname" := levelname r]> (<["msg" := msg r]> ∅))).

Inductive FormatterClass := PlainFormatter | ColorFormatter.

Record Formatter := mkFormatter {
  fmt_class : FormatterClass;
  _fmt : string;
  datefmt : string
}.

Definition usesTime (f : Formatter) : bool :=
  bool_decide (is_Some (String.index 0 "%(asctime)" (_fmt f))).

(** [logging.Formatter.format]: set [message], set [asctime] when the
    format uses it, then substitute. *)
Definition Formatter_format (f : Formatter) (r : LogRecord) : option string :=
  let d := <["message" := msg r]> (record_dict r) in
  d' ← (if usesTime f
        then asctime ← strftime (datefmt f) (created r); Some (<["asctime" := asctime]> d)
        else Some d);
  percent_format (_fmt f) d'.

(** ** The colour table and [ColorFormatter] (setlogger.py, lines 16-40) *)

Definition LOG_COLORS : gmap string string :=
  <["DEBUG" := String ESC "[37m"]> (<["INFO" := String ESC "[36m"]>
  (<["WARNING" := String ESC "[33m"]> (<["ERROR" := String ESC "[31m"]>
  (<["CRITICAL" := String ESC "[41m"]> ∅)))).

Definition RESET_COLOR : string := String ESC "[0m".

Definition ColorFormatter_format (f : Formatter) (r : LogRecord) : option string :=
  let log_color := default RESET_COLOR (LOG_COLORS !! levelname r) in
  message ← Formatter_format f r;
  Some (log_color +:+ message +:+ RESET_COLOR).

(** Method dispatch on the formatter's class. *)
Definition format (f : Formatter) (r : LogRecord) : option string :=
  match fmt_class f with
  | PlainFormatter => Formatter_format f r
  | ColorFormatter => ColorFormatter_format f r
  end.

Definition LOG_FORMAT : string :=
  "%(asctime)s - %(name)s - %(levelname)s - %(message)s".
Definition DATE_FORMAT : string := "%Y-%m-%d %H:%M:%S".

Definition file_formatter : Formatter := mkFormatter PlainFormatter LOG_FORMAT DATE_FORMAT.
Definition color_formatter : Formatter := mkFormatter ColorFormatter LOG_FORMAT DATE_FORMAT.

(** What [DATE_FORMAT] and [LOG_FORMAT] expand to, written out. *)
Definition asctime_of (t : struct_time) : string :=
  pretty (tm_year t) +:+ "-" +:+ format_02d (tm_mon t) +:+ "-" +:+ format_02d (tm_mday t)
  +:+ " " +:+ format_02d (tm_hour t) +:+ ":" +:+ format_02d (tm_min t)
  +:+ ":" +:+ format_02d (tm_sec t).

Definition plain_line (r : LogRecord) : string :=
  asctime_of (created r) +:+ " - " +:+ rec_name r +:+ " - " +:+ levelname r
  +:+ " - " +:+ msg r.

(** ** Files, directories and open streams *)

Record OpenFile := mkOpenFile {
  of_path : string;
  of_mode : string;
  of_encoding : option string
}.

Inductive HandlerClass :=
  | FileHandler_cls (baseFilename : string) (mode : string)
      (encoding : option string) (stream : nat)
  | StreamHandler_cls.

Record Handler := mkHandler {
  handler_class : HandlerClass;
  handler_level : Z;
  formatter : option Formatter
}.

Record Logger := mkLogger {
  logger_name : string;
  logger_level : Z;
  handlers : list Handler;
  propagate : bool
}.

(** The process and its surroundings: the directories and files that
    exist, every stream opened so far (a stream's descriptor is its
    position in [streams]), what was written to [sys.stderr], the root
    logger and [Logger.manager.loggerDict]. *)
Record World := mkWorld {
  dirs : gset string;
  files : gmap string string;
  streams : list OpenFile;
  stderr : string;
  root : Logger;
  loggerDict : gmap string Logger
}.

Definition set_files (fs : gmap string string) (w : World) : World :=
  mkWorld (dirs w) fs (streams w) (stderr w) (root w) (loggerDict w).
Definition set_root (l : Logger) (w : World) : World :=
  mkWorld (dirs w) (files w) (streams w) (stderr w) l (loggerDict w).
Definition set_loggerDict (d : gmap string Logger) (w : World) : World :=
  mkWorld (dirs w) (files w) (streams w) (stderr w) (root w) d.

(** At interpreter start: the root logger at [WARNING], no other logger. *)
Definition initial_world : World :=
  mkWorld ∅ ∅ [] "" (mkLogger "root" WARNING [] true) ∅.

(** [os.makedirs(path, exist_ok=True)]. *)
Definition makedirs (path : string) (w : World) : World :=
  mkWorld ({[path]} ∪ dirs w) (files w) (streams w) (stderr w) (root w) (loggerDict w).

(** [open(path, "a", encoding=...)]: the file is created empty when it
    does not exist and is left as it is otherwise. *)
Definition open_append (path : string) (encoding : option string) (w : World)
    : nat * World :=
  let fs := match files w !! path with
            | Some _ => files w
            | None => <[path := ""%string]> (files w)
            end in
  (length (streams w),
   mkWorld (dirs w) fs (streams w ++ [mkOpenFile path "a" encoding])
     (stderr w) (root w) (loggerDict w)).

(** Writing to a stream opened for appending adds to the end of the file. *)
Definition stream_write (fd : nat) (s : string) (w : World) : World :=
  match streams w !! fd with
  | Some f => set_files (<[of_path f := default ""%string (files w !! of_path f) +:+ s]> (files w)) w
  | None => w
  end.

Definition stderr_write (s : string) (w : World) : World :=
  mkWorld (dirs w) (files w) (streams w) (stderr w +:+ s) (root w) (loggerDict w).

(** ** Handlers *)

(** [logging.FileHandler(filename, encoding=...)]: mode "a", no delay,
    so the constructor opens the stream. The path is kept as written,
    relative to the working directory. *)
Definition FileHandler (filename : string) (encoding : option string) (w : World)
    : Handler * World :=
  let '(fd, w') := open_append filename encoding w in
  (mkHandler (FileHandler_cls filename "a" encoding fd) NOTSET None, w').

(** [logging.StreamHandler()]: the stream is [sys.stderr]. *)
Definition StreamHandler : Handler := mkHandler StreamHandler_cls NOTSET None.

Definition Handler_setLevel (h : Handler) (level : Z) : Handler :=
  mkHandler (handler_class h) level (formatter h).

Definition setFormatter (h : Handler) (f : Formatter) : Handler :=
  mkHandler (handler_class h) (handler_level h) (Some f).

Definition _defaultFormatter : Formatter :=
  mkFormatter PlainFormatter "%(message)s" DATE_FORMAT.

Definition Handler_format (h : Handler) (r : LogRecord) : option string :=
  format (default _defaultFormatter (formatter h)) r.

(** [StreamHandler.emit]: format, then write the text and the
    terminator; a formatting error is swallowed by [handleError]. *)
Definition emit (h : Handler) (r : LogRecord) (w : World) : World :=
  match Handler_format h r with
  | Some text =>
      match handler_class h with
      | FileHandler_cls _ _ _ fd => stream_write fd (text +:+ LF) w
      | StreamHandler_cls => stderr_write (text +:+ LF) w
      end
  | None => w
  end.

(** ** The logger registry *)

Inductive LoggerRef := RootRef | NamedRef (name : string).

Definition lookup_logger (r : LoggerRef) (w : World) : option Logger :=
  match r with
  | RootRef => Some (root w)
  | NamedRef n => loggerDict w !! n
  end.

Definition alter_logger (f : Logger → Logger) (r : LoggerRef) (w : World) : World :=
  match r with
  | RootRef => set_root (f (root w)) w
  | NamedRef n => set_loggerDict (alter f n (loggerDict w)) w
  end.

(** [logging.getLogger(name)]: the root logger for an empty name or the
    root's own name, else the registry entry, created on first use. A
    new logger becomes the parent of the registered loggers below its
    name; the model has no parent attribute and shows this in
    [ancestors], which reads the registry. *)
Definition getLogger (name : string) (w : World) : LoggerRef * World :=
  if decide (name = ""%string ∨ name = logger_name (root w)) then (RootRef, w)
  else match loggerDict w !! name with
       | Some _ => (NamedRef name, w)
       | None => (NamedRef name,
                  set_loggerDict (<[name := mkLogger name NOTSET [] true]> (loggerDict w)) w)
       end.

Definition Logger_setLevel (r : LoggerRef) (level : Z) (w : World) : World :=
  alter_logger (λ l, mkLogger (logger_name l) level (handlers l) (propagate l)) r w.

(** [Logger.addHandler]: the handlers added here are new objects, so
    the membership test of the library never holds. *)
Definition addHandler (r : LoggerRef) (h : Handler) (w : World) : World :=
  alter_logger (λ l, mkLogger (logger_name l) (logger_level l) (handlers l ++ [h]) (propagate l)) r w.

Definition handlers_of (r : LoggerRef) (w : World) : list Handler :=
  from_option handlers [] (lookup_logger r w).

(** *** The dotted-name hierarchy *)

Fixpoint dot_positions (i : nat) (s : string) : list nat :=
  match s with
  | EmptyString => []
  | String c rest =>
      (if Ascii.eqb c "."%char then [i] else []) ++ dot_positions (S i) rest
  end.

(** The positions [_fixupParents] visits:
    [i = name.rfind(".")], then [i = name.rfind(".", 0, i - 1)] while
    [i > 0]. [ps] lists the dots from the right. *)
Fixpoint rfind_chain (ps : list nat) (last : option nat) : list nat :=
  match ps with
  | [] => []
  | p :: ps' =>
      if match last with Some i => bool_decide (p + 1 < i)%nat | None => true end
      then (if bool_decide (0 < p)%nat then p :: rfind_chain ps' (Some p) else [])
      else rfind_chain ps' last
  end.

Definition parent_names (name : string) : list string :=
  (λ i, String.substring 0 i name) <$> rfind_chain (reverse (dot_positions 0 name)) None.

(** The loggers above [r], nearest first: the registered dotted
    prefixes of its name, then the root. The library keeps this chain
    in the [parent] attributes and repairs it whenever a logger is
    created. *)
Definition ancestors (r : LoggerRef) (w : World) : list Logger :=
  match r with
  | RootRef => []
  | NamedRef n => omap (λ p, loggerDict w !! p) (parent_names n) ++ [root w]
  end.

Definition logger_chain (r : LoggerRef) (w : World) : list Logger :=
  from_option (λ l, [l]) [] (lookup_logger r w) ++ ancestors r w.

Definition getEffectiveLevel (r : LoggerRef) (w : World) : Z :=
  from_option logger_level NOTSET
    (head (filter (λ l, logger_level l ≠ NOTSET) (logger_chain r w))).

(** [Logger.isEnabledFor] with [manager.disable] at its initial 0. *)
Definition isEnabledFor (r : LoggerRef) (level : Z) (w : World) : bool :=
  if bool_decide (level ≤ 0) then false
  else bool_decide (getEffectiveLevel r w ≤ level).

(** The loggers whose handlers see a record logged on [r]. *)
Fixpoint propagation_chain (ls : list Logger) : list Logger :=
  match ls with
  | [] => []
  | l :: rest => l :: (if propagate l then propagation_chain rest else [])
  end.

Definition handle_with (r : LogRecord) (w : World) (h : Handler) : World :=
  if bool_decide (handler_level h ≤ levelno r) then emit h r w else w.

(** [Logger.callHandlers], with the handler of last resort. *)
Definition callHandlers (lr : LoggerRef) (r : LogRecord) (w : World) : World :=
  let hs := propagation_chain (logger_chain lr w) ≫= handlers in
  match hs with
  | [] => if bool_decide (WARNING ≤ levelno r) then stderr_write (msg r +:+ LF) w else w
  | _ => foldl (handle_with r) w hs
  end.

(** [Logger.log(level, msg)] at local time [now]. *)
Definition Logger_log (lr : LoggerRef) (level : Z) (m : string) (now : struct_time)
    (w : World) : World :=
  if isEnabledFor lr level w then
    match lookup_logger lr w with
    | Some l => callHandlers lr (makeRecord (logger_name l) level m now) w
    | None => w
    end
  else w.

(** [Logger.debug], [info], [warning], [error] and [critical]. *)
Definition Logger_severity (lr : LoggerRef) (s : Severity) (m : string)
    (now : struct_time) (w : World) : World :=
  Logger_log lr (severity_level s) m now w.

(** ** [setup_logger] (setlogger.py, lines 43-96) *)

Definition log_filename (make_folder : string) (today : date) : string :=
  make_folder +:+ format_02d (month today) +:+ "-" +:+ format_02d (day today)
  +:+ "-" +:+ pretty (year today) +:+ ".log".

(** [today] is what [dt.date.today()] returns during the call. *)
Definition setup_logger (log_name : string) (level : Z) (today : date) (w : World)
    : LoggerRef * World :=
  let make_folder := "./logs/"%string in
  let w := makedirs make_folder w in
  let filename := log_filename make_folder today in
  let '(logger, w) := getLogger log_name w in
  let w := Logger_setLevel logger DEBUG w in
  let '(file_handler, w) := FileHandler filename (Some "utf-8"%string) w in
  let file_handler := Handler_setLevel file_handler level in
  let file_handler := setFormatter file_handler file_formatter in
  let stream_handler := StreamHandler in
  let stream_handler := Handler_setLevel stream_handler level in
  let stream_handler := setFormatter stream_handler color_formatter in
  let w := match handlers_of logger w with
           | [] => addHandler logger stream_handler (addHandler logger file_handler w)
           | _ :: _ => w
           end in
  (logger, w).

(** The two sinks a call of [setup_logger] builds, for the stream
    descriptor [fd] its [FileHandler] obtained. *)
Definition file_sink (filename : string) (fd : nat) (level : Z) : Handler :=
  mkHandler (FileHandler_cls filename "a" (Some "utf-8"%string) fd) level
    (Some file_formatter).

Definition console_sink (level : Z) : Handler :=
  mkHandler StreamHandler_cls level (Some color_formatter).

Definition is_file_sink (h : Handler) : bool :=
  match handler_class h with FileHandler_cls _ _ _ _ => true | StreamHandler_cls => false end.

Definition is_console_sink (h : Handler) : bool :=
  match handler_class h with FileHandler_cls _ _ _ _ => false | StreamHandler_cls => true end.

(** Each kind of sink occurs at most once in a handler list. *)
Definition at_most_once (hs : list Handler) : Prop :=
  (length (filter is_file_sink hs) ≤ 1)%nat ∧
  (length (filter is_console_sink hs) ≤ 1)%nat.

(** A run of [setup_logger] calls for one name, each with its own level
    and date; the result lists the references returned, oldest first. *)
Fixpoint setup_logger_calls (log_name : string) (calls : list (Z * date)) (w : World)
    : list LoggerRef * World :=
  match calls with
  | [] => ([], w)
  | (level, today) :: rest =>
      let '(r, w1) := setup_logger log_name level today w in
      let '(rs, w2) := setup_logger_calls log_name rest w1 in
      (r :: rs, w2)
  end.

(** ** The spec's reading of the formats

    The spec writes file names as [MM-DD-YYYY] and time stamps as
    [YYYY-MM-DD HH:MM:SS]. These definitions spell that out digit by
    digit, to be compared with what the code computes. *)

Definition digit_char (n : Z) : ascii := ascii_of_nat (48 + Z.to_nat n).

Definition spec_two_digits (n : Z) : string :=
  String (digit_char (n / 10)) (String (digit_char (n mod 10)) "").

Definition spec_four_digits (n : Z) : string :=
  String (digit_char (n / 1000)) (String (digit_char (n / 100 mod 10))
    (String (digit_char (n / 10 mod 10)) (String (digit_char (n mod 10)) ""))).

Definition spec_log_path (d : date) : string :=
  "./logs/" +:+ spec_two_digits (month d) +:+ "-" +:+ spec_two_digits (day d)
  +:+ "-" +:+ spec_four_digits (year d) +:+ ".log".

Definition spec_timestamp (t : struct_time) : string :=
  spec_four_digits (tm_year t) +:+ "-" +:+ spec_two_digits (tm_mon t) +:+ "-"
  +:+ spec_two_digits (tm_mday t) +:+ " " +:+ spec_two_digits (tm_hour t) +:+ ":"
  +:+ spec_two_digits (tm_min t) +:+ ":" +:+ spec_two_digits (tm_sec t).

(** ** Sample inputs *)

Definition sample_date : date := Date 2026 11 4.
Definition sample_next_day : date := Date 2026 11 5.
Definition sample_time : struct_time := StructTime 2026 11 4 9 5 7.

(** After [setup_logger("app", logging.INFO)] in a new process. *)
Definition world_app : World := (setup_logger "app" INFO sample_date initial_world).2.

(** After [setup_logger("app.db", logging.INFO)] in that world. *)
Definition world_app_db : World := (setup_logger "app.db" INFO sample_date world_app).2.

(** A new process in which other code gave "app" a console handler. *)
Definition world_foreign : World :=
  addHandler (NamedRef "app") StreamHandler (getLogger "app" initial_world).2.

#[global] Instance LoggerRef_eq_dec : EqDecision LoggerRef.
Proof. solve_decision. Defined.

(** ** The module's script (setlogger.py, lines 100-106) *)

(** [setup_logger("my_app")] with the default level, then one call of
    each severity; every call reads the clock. The messages are the
    UTF-8 bytes of the source's literals. *)
Definition main (today : date) (t1 t2 t3 t4 t5 : struct_time) (w : World) : World :=
  let '(log, w) := setup_logger "my_app" DEBUG today w in
  let w := Logger_severity log SevDebug "이건 DEBUG 메시지 (회색)" t1 w in
  let w := Logger_severity log SevInfo "이건 INFO 메시지 (청록색)" t2 w in
  let w := Logger_severity log SevWarning "이건 WARNING 메시지 (노란색)" t3 w in
  let w := Logger_severity log SevError "이건 ERROR 메시지 (빨간색)" t4 w in
  let w := Logger_severity log SevCritical "이건 CRITICAL 메시지 (빨간 배경)" t5 w in
  w.

(** ** Runs of calls *)

(** What a program does with this module: it calls [setup_logger], and
    it logs on a logger it holds. *)
Inductive Event :=
  | Setup (log_name : string) (level : Z) (today : date)
  | Log (logger : LoggerRef) (level : Z) (m : string) (now : struct_time).

Definition step (w : World) (ev : Event) : World :=
  match ev with
  | Setup log_name level today => (setup_logger log_name level today w).2
  | Log logger level m now => Logger_log logger level m now w
  end.

Definition run (evs : list Event) (w : World) : World := foldl step w evs.

Definition is_setup (ev : Event) : bool :=
  match ev with Setup _ _ _ => true | Log _ _ _ _ => false end.

(** Several records logged on one logger, oldest first. *)
Definition log_records (r : LoggerRef) (recs : list (Z * string * struct_time))
    (w : World) : World :=
  foldl (λ w '(level, m, now), Logger_log r level m now w) w recs.

(** A record of [level] gets past a logger at DEBUG and a sink at
    [minLevel]. *)
Definition passes (minLevel level : Z) : bool :=
  bool_decide (DEBUG ≤ level) && bool_decide (minLevel ≤ level).

(** The lines that the records passing [minLevel] make, one after the
    other; [wrap] is the identity for the file and the colouring for
    the console. *)
Fixpoint lines_of (wrap : LogRecord → string → string) (name : string) (minLevel : Z)
    (recs : list (Z * string * struct_time)) : string :=
  match recs with
  | [] => ""
  | (level, m, now) :: rest =>
      (if passes minLevel level
       then let rec := makeRecord name level m now in wrap rec (plain_line rec) +:+ LF
       else "") +:+ lines_of wrap name minLevel rest
  end.

Definition plain_wrap (rec : LogRecord) (line : string) : string := line.

Definition color_wrap (rec : LogRecord) (line : string) : string :=
  default RESET_COLOR (LOG_COLORS !! levelname rec) +:+ line +:+ RESET_COLOR.

(** The logger [r], named [name], carries the two sinks of
    [setup_logger] on [path] at [minLevel], its stream is open, and no
    logger above it has a handler. *)
Definition built (r : LoggerRef) (name path : string) (fd : nat) (minLevel : Z)
    (w : World) : Prop :=
  (∃ e, lookup_logger r w = Some e ∧ logger_name e = name ∧ logger_level e = DEBUG ∧
        handlers e = [file_sink path fd minLevel; console_sink minLevel]) ∧
  streams w !! fd = Some (mkOpenFile path "a" (Some "utf-8"%string)) ∧
  Forall (λ a, handlers a = []) (ancestors r w).

(** Everything but the files and the console is the same in both worlds. *)
Definition same_registry (w w' : World) : Prop :=
  dirs w' = dirs w ∧ streams w' = streams w ∧ root w' = root w ∧
  loggerDict w' = loggerDict w.

(** Every file of [w] is in [w'] with its contents as a prefix. *)
Definition files_extended (w w' : World) : Prop :=
  ∀ p c, files w !! p = Some c → ∃ more, files w' !! p = Some (c +:+ more).

(** From [w] to [w'] text was added at the end of files and of the
    console, and nothing else happened. *)
Definition only_appends (w w' : World) : Prop :=
  same_registry w w' ∧ files_extended w w' ∧ ∃ more, stderr w' = stderr w +:+ more.

(** Every logger has no handler, or the file sink and the console sink
    of one [setup_logger] call, with the sink's stream open on its path
    and the file in place; named entries carry their key as name, sit
    at DEBUG and propagate. *)
Definition sinks_wf (w : World) : Prop :=
  (∀ r e, lookup_logger r w = Some e →
     handlers e = [] ∨
     ∃ path fd level,
       handlers e = [file_sink path fd level; console_sink level] ∧
       streams w !! fd = Some (mkOpenFile path "a" (Some "utf-8"%string)) ∧
       is_Some (files w !! path)) ∧
  (∀ n e, loggerDict w !! n = Some e →
     logger_name e = n ∧ logger_level e = DEBUG ∧ propagate e = true) ∧
  logger_name (root w) = "root"%string.

(** [h] is a file handler whose stream, among the open streams [ss],
    is on [path]. *)
Definition writes_to (path : string) (ss : list OpenFile) (h : Handler) : Prop :=
  match handler_class h with
  | FileHandler_cls _ _ _ fd => ∃ f, ss !! fd = Some f ∧ of_path f = path
  | StreamHandler_cls => False
  end.

(** The handlers, beyond its own, that see a record logged on [r]:
    those of the loggers it propagates to. *)
Definition handlers_above (r : LoggerRef) (w : World) : list Handler :=
  match lookup_logger r w with
  | Some e => if propagate e then propagation_chain (ancestors r w) ≫= handlers else []
  | None => []
  end.

(** The logger [r] sits at DEBUG and carries the two sinks of
    [setup_logger] on [path] at [minLevel]; the sink's stream is open
    and the file exists. *)
Definition attached (r : LoggerRef) (path : string) (fd : nat) (minLevel : Z)
    (w : World) : Prop :=
  (∃ e, lookup_logger r w = Some e ∧ logger_level e = DEBUG ∧
        handlers e = [file_sink path fd minLevel; console_sink minLevel]) ∧
  streams w !! fd = Some (mkOpenFile path "a" (Some "utf-8"%string)) ∧
  is_Some (files w !! path).

(** After [setup_logger("app", logging.INFO)], [setup_logger("jobs",
    logging.INFO)] and one record on "jobs". *)
Definition world_later : World :=
  run [Setup "jobs" INFO sample_date; Log (NamedRef "jobs") ERROR "first" sample_time]
    world_app.

(** * Properties *)

Lemma string_app_nil_r (s : string) : s +:+ "" = s.
Proof.
  induction s as [|c s IH]; [done|].
  change (String c (s +:+ "") = String c s). by rewrite IH.
Qed.

Lemma strftime_DATE_FORMAT t : strftime DATE_FORMAT t = Some (asctime_of t).
Proof.
  unfold strftime, DATE_FORMAT, asctime_of. cbn -[pretty format_02d].
  by rewrite string_app_nil_r.
Qed.

Lemma usesTime_LOG_FORMAT c d : usesTime (mkFormatter c LOG_FORMAT d) = true.
Proof. reflexivity. Qed.

(** ** The formatters *)

Lemma percent_format_LOG_FORMAT (d : gmap string string) a n l m :
  d !! "asctime" = Some a → d !! "name" = Some n →
  d !! "levelname" = Some l → d !! "message" = Some m →
  percent_format LOG_FORMAT d = Some (a +:+ " - " +:+ n +:+ " - " +:+ l +:+ " - " +:+ m).
Proof.
  intros Ha Hn Hl Hm. unfold percent_format, LOG_FORMAT. cbn -[lookup].
  repeat match goal with
         | |- context [d !! ?k] =>
             progress (let k' := eval vm_compute in k in change k with k')
         end.
  rewrite Ha, Hn, Hl, Hm. cbn. by rewrite string_app_nil_r.
Qed.

Lemma Formatter_format_line c r :
  Formatter_format (mkFormatter c LOG_FORMAT DATE_FORMAT) r = Some (plain_line r).
Proof.
  unfold Formatter_format. rewrite usesTime_LOG_FORMAT. cbn [datefmt _fmt].
  rewrite strftime_DATE_FORMAT. cbn [mbind option_bind].
  unfold plain_line, record_dict.
  apply percent_format_LOG_FORMAT; by simplify_map_eq.
Qed.

Lemma format_file_formatter r : format file_formatter r = Some (plain_line r).
Proof. apply Formatter_format_line. Qed.

Lemma format_color_formatter r :
  format color_formatter r =
    Some (default RESET_COLOR (LOG_COLORS !! levelname r) +:+ plain_line r +:+ RESET_COLOR).
Proof.
  unfold format, color_formatter, ColorFormatter_format. cbn [fmt_class].
  by rewrite Formatter_format_line.
Qed.

Lemma LOG_COLORS_severity (s : Severity) :
  LOG_COLORS !! severity_name s =
    Some (String ESC match s with
                     | SevDebug => "[37m" | SevInfo => "[36m" | SevWarning => "[33m"
                     | SevError => "[31m" | SevCritical => "[41m"
                     end).
Proof. by destruct s. Qed.

Lemma LOG_COLORS_unrecognised (n : string) :
  (∀ s, n ≠ severity_name s) → LOG_COLORS !! n = None.
Proof.
  intros Hn. unfold LOG_COLORS.
  pose proof (Hn SevDebug). pose proof (Hn SevInfo). pose proof (Hn SevWarning).
  pose proof (Hn SevError). pose proof (Hn SevCritical).
  by simplify_map_eq.
Qed.

(** C2. For a record whose level name is one of DEBUG, INFO, WARNING,
    ERROR, CRITICAL, [ColorFormatter.format] returns the colour code of
    that severity (ESC[37m, ESC[36m, ESC[33m, ESC[31m, ESC[41m in that
    order), then the line the plain formatter produces, then the reset
    code ESC[0m. This holds for the formatter [setup_logger] builds and,
    relative to the base class, for any format string. *)
Theorem ColorFormatter_format_recognised (s : Severity) (r : LogRecord) :
  levelname r = severity_name s →
  let color := String ESC match s with
                          | SevDebug => "[37m" | SevInfo => "[36m"
                          | SevWarning => "[33m" | SevError => "[31m"
                          | SevCritical => "[41m"
                          end in
  format file_formatter r = Some (plain_line r) ∧
  format color_formatter r = Some (color +:+ plain_line r +:+ String ESC "[0m") ∧
  ∀ f, ColorFormatter_format f r =
         (λ line, color +:+ line +:+ String ESC "[0m") <$> Formatter_format f r.
Proof.
  intros Hs color. split_and!.
  - apply format_file_formatter.
  - rewrite format_color_formatter, Hs, LOG_COLORS_severity. done.
  - intros f. unfold ColorFormatter_format.
    rewrite Hs, LOG_COLORS_severity. by destruct (Formatter_format f r).
Qed.

Lemma ColorFormatter_format_recognised_witness :
  levelname (makeRecord "app" ERROR "boom" sample_time) = severity_name SevError ∧
  format color_formatter (makeRecord "app" ERROR "boom" sample_time) =
    Some (String ESC "[31m" +:+ "2026-11-04 09:05:07 - app - ERROR - boom"
          +:+ String ESC "[0m").
Proof.
  split; [reflexivity|].
  exact (proj1 (proj2 (ColorFormatter_format_recognised SevError
    (makeRecord "app" ERROR "boom" sample_time) eq_refl))).
Defined.

(** C3. For a record whose level name is none of the five recognised
    ones, [ColorFormatter.format] does not fail: it returns the plain
    line with the reset code ESC[0m before and after it. *)
Theorem ColorFormatter_format_unrecognised (r : LogRecord) :
  (∀ s, levelname r ≠ severity_name s) →
  format color_formatter r =
    Some (String ESC "[0m" +:+ plain_line r +:+ String ESC "[0m") ∧
  ∀ f, ColorFormatter_format f r =
         (λ line, String ESC "[0m" +:+ line +:+ String ESC "[0m") <$> Formatter_format f r.
Proof.
  intros Hs. split.
  - rewrite format_color_formatter, LOG_COLORS_unrecognised; done.
  - intros f. unfold ColorFormatter_format.
    rewrite LOG_COLORS_unrecognised by done. by destruct (Formatter_format f r).
Qed.

Lemma ColorFormatter_format_unrecognised_witness :
  (∀ s, levelname (makeRecord "app" 25 "odd" sample_time) ≠ severity_name s) ∧
  format color_formatter (makeRecord "app" 25 "odd" sample_time) =
    Some (String ESC "[0m" +:+ "2026-11-04 09:05:07 - app - Level 25 - odd"
          +:+ String ESC "[0m").
Proof.
  assert (∀ s, levelname (makeRecord "app" 25 "odd" sample_time) ≠ severity_name s)
    as Hs by (intros s; destruct s; vm_compute; discriminate).
  split; [exact Hs|].
  exact (proj1 (ColorFormatter_format_unrecognised
    (makeRecord "app" 25 "odd" sample_time) Hs)).
Defined.

(** ** Decimal formatting *)

Lemma range_check (P : Z → bool) (lo len : Z) :
  forallb P (seqZ lo len) = true → ∀ n, lo ≤ n < lo + len → P n = true.
Proof.
  intros Hall n Hn. rewrite forallb_forall in Hall.
  apply Hall, list_elem_of_In, elem_of_seqZ, Hn.
Qed.

Lemma format_02d_two_digits (n : Z) :
  0 ≤ n < 100 → format_02d n = spec_two_digits n.
Proof.
  intros Hn. apply String.eqb_eq.
  apply (range_check (λ k, String.eqb (format_02d k) (spec_two_digits k)) 0 100);
    [by vm_compute | lia].
Qed.

Lemma pretty_four_digits (n : Z) :
  1000 ≤ n < 10000 → pretty n = spec_four_digits n.
Proof.
  intros Hn. apply String.eqb_eq.
  apply (range_check (λ k, String.eqb (pretty k) (spec_four_digits k)) 1000 9000);
    [by vm_compute | lia].
Qed.

Lemma digit_char_inj (a b : Z) :
  0 ≤ a < 10 → 0 ≤ b < 10 → digit_char a = digit_char b → a = b.
Proof.
  intros Ha Hb Hab. unfold digit_char in Hab.
  apply (f_equal nat_of_ascii) in Hab.
  rewrite !nat_ascii_embedding in Hab by lia. lia.
Qed.

Lemma spec_two_digits_inj (a b : Z) :
  0 ≤ a < 100 → 0 ≤ b < 100 → spec_two_digits a = spec_two_digits b → a = b.
Proof.
  intros Ha Hb [= H1 H2].
  assert (∀ n, 0 ≤ n < 100 → 0 ≤ n / 10 < 10) as Hdiv.
  { intros n Hn. split; [apply Z.div_pos; lia | apply Z.div_lt_upper_bound; lia]. }
  apply digit_char_inj in H1; [|by apply Hdiv..].
  apply digit_char_inj in H2; [|by apply Z.mod_pos_bound..].
  rewrite (Z.div_mod a 10), (Z.div_mod b 10) by done. by rewrite H1, H2.
Qed.

Lemma string_app_length (s1 s2 : string) :
  String.length (s1 +:+ s2) = (String.length s1 + String.length s2)%nat.
Proof.
  induction s1 as [|c s1 IH]; [done|].
  change (S (String.length (s1 +:+ s2)) = S (String.length s1 + String.length s2)).
  by rewrite IH.
Qed.

(** Two concatenations that agree split alike when their heads have the
    same length. *)
Lemma string_app_eq_split (a1 a2 b1 b2 : string) :
  String.length a1 = String.length a2 → a1 +:+ b1 = a2 +:+ b2 → a1 = a2 ∧ b1 = b2.
Proof.
  revert a2. induction a1 as [|c a1 IH]; intros [|c' a2] Hlen Heq; try done.
  change (String c (a1 +:+ b1) = String c' (a2 +:+ b2)) in Heq.
  injection Heq as -> Heq. injection Hlen as Hlen.
  destruct (IH _ Hlen Heq) as [-> ->]. done.
Qed.

Lemma string_app_inj_r (a1 a2 b : string) : a1 +:+ b = a2 +:+ b → a1 = a2.
Proof.
  intros Heq. apply (string_app_eq_split a1 a2 b b); [|done].
  apply (f_equal String.length) in Heq. rewrite !string_app_length in Heq. lia.
Qed.

(** ** The log file's name *)

Lemma valid_date_ranges (d : date) :
  valid_date d → 1 ≤ year d < 10000 ∧ 0 ≤ month d < 100 ∧ 0 ≤ day d < 100.
Proof.
  intros (Hy & Hm & Hd). unfold MINYEAR, MAXYEAR in Hy.
  assert (days_in_month (year d) (month d) ≤ 31).
  { unfold days_in_month. repeat case_match; lia. }
  lia.
Qed.

Lemma log_filename_inj (folder : string) (d1 d2 : date) :
  valid_date d1 → valid_date d2 →
  log_filename folder d1 = log_filename folder d2 → d1 = d2.
Proof.
  intros (Hy1 & Hm1 & Hd1)%valid_date_ranges (Hy2 & Hm2 & Hd2)%valid_date_ranges.
  unfold log_filename. intros Heq%(inj (String.app folder)).
  rewrite !format_02d_two_digits in Heq by done.
  apply string_app_eq_split in Heq as [Hm Heq]; [|done].
  apply (string_app_eq_split "-" "-") in Heq as [_ Heq]; [|done].
  apply string_app_eq_split in Heq as [Hd Heq]; [|done].
  apply (string_app_eq_split "-" "-") in Heq as [_ Heq]; [|done].
  apply string_app_inj_r, (inj pretty) in Heq.
  apply spec_two_digits_inj in Hm; [|done..].
  apply spec_two_digits_inj in Hd; [|done..].
  destruct d1, d2; simplify_eq/=; done.
Qed.

Lemma log_filename_spec (d : date) :
  valid_date d → 1000 ≤ year d → log_filename "./logs/" d = spec_log_path d.
Proof.
  intros (Hy & Hm & Hd)%valid_date_ranges Hy'. unfold log_filename, spec_log_path.
  by rewrite !format_02d_two_digits, pretty_four_digits by lia.
Qed.

(** ** What a call of [setup_logger] does to the world *)

Lemma getLogger_ref (name : string) (w : World) :
  (getLogger name w).1 =
    if decide (name = ""%string ∨ name = logger_name (root w)) then RootRef
    else NamedRef name.
Proof. unfold getLogger. case_decide; [done|]. by destruct (loggerDict w !! name). Qed.

Lemma setup_logger_ref (name : string) (level : Z) (today : date) (w : World) :
  (setup_logger name level today w).1 = (getLogger name w).1.
Proof.
  unfold setup_logger, getLogger. cbn. case_decide; [done|].
  by destruct (loggerDict w !! name).
Qed.

Lemma setup_logger_frame (name : string) (level : Z) (today : date) (w : World) :
  let path := log_filename "./logs/" today in
  let w' := (setup_logger name level today w).2 in
  dirs w' = {["./logs/"%string]} ∪ dirs w ∧
  files w' = match files w !! path with
             | Some _ => files w
             | None => <[path := ""%string]> (files w)
             end ∧
  streams w' = streams w ++ [mkOpenFile path "a" (Some "utf-8"%string)] ∧
  stderr w' = stderr w ∧
  logger_name (root w') = logger_name (root w).
Proof.
  unfold setup_logger, getLogger. cbn. case_decide.
  - unfold handlers_of. cbn. by destruct (handlers (root w)).
  - destruct (loggerDict w !! name) as [e|] eqn:He; unfold handlers_of; cbn.
    + rewrite lookup_alter_eq, He. cbn. by destruct (handlers e).
    + rewrite lookup_alter_eq, lookup_insert_eq. done.
Qed.

Lemma setup_logger_entry (name : string) (level : Z) (today : date) (w : World) :
  let r := (getLogger name w).1 in
  let w' := (setup_logger name level today w).2 in
  let path := log_filename "./logs/" today in
  ∃ e', lookup_logger r w' = Some e' ∧
    logger_level e' = DEBUG ∧
    handlers e' = match handlers_of r w with
                  | [] => [file_sink path (length (streams w)) level; console_sink level]
                  | h :: hs => h :: hs
                  end ∧
    (∀ e, lookup_logger r w = Some e →
       logger_name e' = logger_name e ∧ propagate e' = propagate e).
Proof.
  unfold setup_logger, getLogger. cbn. case_decide.
  - unfold handlers_of. cbn. destruct (handlers (root w)) as [|h hs] eqn:Hh; cbn.
    + eexists. split; [done|]. cbn. rewrite ?Hh. split_and!; try done.
      by intros e [= <-].
    + eexists. split; [done|]. cbn. rewrite ?Hh. split_and!; try done.
      by intros e [= <-].
  - destruct (loggerDict w !! name) as [e|] eqn:He; unfold handlers_of; cbn.
    + rewrite lookup_alter_eq, He. cbn.
      destruct (handlers e) as [|h hs] eqn:Hh; cbn.
      * rewrite !lookup_alter_eq, He. cbn. eexists. split; [done|]. cbn.
        rewrite ?Hh. split_and!; try done. by intros ? [= <-].
      * rewrite !lookup_alter_eq, He. cbn. eexists. split; [done|]. cbn.
        rewrite ?Hh. split_and!; try done. by intros ? [= <-].
    + rewrite lookup_alter_eq, lookup_insert_eq. cbn.
      rewrite !lookup_alter_eq, lookup_insert_eq. cbn.
      eexists. split; [done|]. cbn. rewrite He. by split_and!.
Qed.

Lemma setup_logger_other (name : string) (level : Z) (today : date) (w : World)
    (r' : LoggerRef) :
  r' ≠ (getLogger name w).1 →
  lookup_logger r' (setup_logger name level today w).2 = lookup_logger r' w.
Proof.
  unfold setup_logger, getLogger. cbn. case_decide.
  - intros Hr'. destruct r' as [|n]; [done|].
    unfold handlers_of. cbn. by destruct (handlers (root w)).
  - destruct (loggerDict w !! name) as [e|] eqn:He; unfold handlers_of; cbn; intros Hr'.
    + rewrite lookup_alter_eq, He. cbn.
      destruct r' as [|n]; [by destruct (handlers e)|].
      assert (name ≠ n) by congruence.
      destruct (handlers e); cbn; by rewrite ?lookup_alter_ne.
    + rewrite lookup_alter_eq, lookup_insert_eq. cbn.
      destruct r' as [|n]; [done|].
      assert (name ≠ n) by congruence. cbn.
      by rewrite !lookup_alter_ne, lookup_insert_ne.
Qed.

Lemma setup_logger_handlers (name : string) (level : Z) (today : date) (w : World) :
  let r := (getLogger name w).1 in
  handlers_of r (setup_logger name level today w).2 =
    match handlers_of r w with
    | [] => [file_sink (log_filename "./logs/" today) (length (streams w)) level;
             console_sink level]
    | h :: hs => h :: hs
    end.
Proof.
  intros r. destruct (setup_logger_entry name level today w) as (e' & He' & _ & Hh & _).
  fold r in He', Hh. unfold handlers_of at 1. by rewrite He'.
Qed.

Lemma setup_logger_getLogger (name name' : string) (level : Z) (today : date) (w : World) :
  (getLogger name' (setup_logger name level today w).2).1 = (getLogger name' w).1.
Proof.
  rewrite !getLogger_ref.
  destruct (setup_logger_frame name level today w) as (_ & _ & _ & _ & ->). done.
Qed.

Lemma files_lookup_after_open (path p : string) (fs : gmap string string) :
  match fs !! path with Some _ => fs | None => <[path := ""%string]> fs end !! p =
    if decide (p = path) then Some (default ""%string (fs !! path)) else fs !! p.
Proof.
  destruct (fs !! path) as [c|] eqn:Hc; case_decide; simplify_map_eq; done.
Qed.

(** ** Sinks are attached once *)

Lemma setup_logger_at_most_once (name : string) (level : Z) (today : date) (w : World) :
  let r := (getLogger name w).1 in
  at_most_once (handlers_of r w) →
  at_most_once (handlers_of r (setup_logger name level today w).2).
Proof.
  intros r Hw. subst r. rewrite setup_logger_handlers.
  destruct (handlers_of _ w); [|done]. split; compute; lia.
Qed.

Lemma setup_logger_calls_invariant (name : string) (calls : list (Z * date)) :
  ∀ w, at_most_once (handlers_of (getLogger name w).1 w) →
    let r := (getLogger name w).1 in
    let res := setup_logger_calls name calls w in
    (getLogger name res.2).1 = r ∧ Forall (λ r', r' = r) res.1 ∧
    at_most_once (handlers_of r res.2).
Proof.
  induction calls as [|[level today] calls IH]; intros w Hw r res.
  - by split_and!.
  - subst res. cbn [setup_logger_calls].
    destruct (setup_logger name level today w) as [r1 w1] eqn:H1.
    pose proof (setup_logger_ref name level today w) as Hr1.
    pose proof (setup_logger_getLogger name name level today w) as Hg.
    pose proof (setup_logger_at_most_once name level today w Hw) as Hw1.
    rewrite H1 in Hr1, Hg, Hw1. cbn [fst snd] in Hr1, Hg, Hw1. fold r in Hr1, Hg, Hw1.
    rewrite <- Hg in Hw1. specialize (IH w1 Hw1). cbn zeta in IH. rewrite Hg in IH.
    destruct (setup_logger_calls name calls w1) as [rs w2]. cbn [fst snd] in *.
    destruct IH as (? & ? & ?). split_and!; [done| |done].
    constructor; done.
Qed.

Lemma setup_logger_twice (name : string) (l1 l2 : Z) (d1 d2 : date) (w : World) :
  let w1 := (setup_logger name l1 d1 w).2 in
  let r := (getLogger name w).1 in
  (setup_logger name l2 d2 w1).1 = r ∧
  handlers_of r (setup_logger name l2 d2 w1).2 = handlers_of r w1.
Proof.
  cbv zeta. split.
  - rewrite setup_logger_ref. apply setup_logger_getLogger.
  - pose proof (setup_logger_handlers name l2 d2 (setup_logger name l1 d1 w).2) as H2.
    cbv zeta in H2. rewrite setup_logger_getLogger in H2. rewrite H2.
    rewrite (setup_logger_handlers name l1 d1 w).
    by destruct (handlers_of _ w).
Qed.

Lemma setup_logger_calls_keep (name : string) (calls : list (Z * date)) :
  ∀ w h hs, handlers_of (getLogger name w).1 w = h :: hs →
    handlers_of (getLogger name w).1 (setup_logger_calls name calls w).2 = h :: hs.
Proof.
  induction calls as [|[level today] calls IH]; intros w h hs Hw; [done|].
  cbn [setup_logger_calls].
  destruct (setup_logger name level today w) as [r1 w1] eqn:H1.
  pose proof (setup_logger_getLogger name name level today w) as Hg.
  pose proof (setup_logger_handlers name level today w) as Hh.
  rewrite H1 in Hg, Hh. cbn [fst snd] in Hg, Hh. cbv zeta in Hh. rewrite Hw in Hh.
  rewrite <- Hg in Hh. specialize (IH w1 h hs Hh). rewrite Hg in IH.
  by destruct (setup_logger_calls name calls w1).
Qed.

(** C1. Start from a world in which the logger of [name] has no sinks
    (as at process start) and call [setup_logger] for that name any
    number of times, with any levels and on any dates. Every call
    returns the same registry entry, the entry carries at most one file
    sink and at most one console sink (after the first call: exactly
    the two that call built), and in any world whatever a second call
    returns the entry of the first and leaves its handler list, hence
    the sink count, as the first call left it. *)
Theorem setup_logger_sinks_at_most_once (name : string) (calls : list (Z * date))
    (w : World) :
  handlers_of (getLogger name w).1 w = [] →
  let r := (getLogger name w).1 in
  let res := setup_logger_calls name calls w in
  Forall (λ r', r' = r) res.1 ∧
  (length (filter is_file_sink (handlers_of r res.2)) ≤ 1)%nat ∧
  (length (filter is_console_sink (handlers_of r res.2)) ≤ 1)%nat ∧
  (∀ level today rest, calls = (level, today) :: rest →
     handlers_of r res.2 =
       [file_sink (log_filename "./logs/" today) (length (streams w)) level;
        console_sink level]) ∧
  (∀ w0 l1 d1 l2 d2,
     let first := setup_logger name l1 d1 w0 in
     let second := setup_logger name l2 d2 first.2 in
     second.1 = first.1 ∧
     handlers_of first.1 second.2 = handlers_of first.1 first.2 ∧
     length (handlers_of first.1 second.2) = length (handlers_of first.1 first.2)).
Proof.
  intros Hw r res.
  assert (at_most_once (handlers_of (getLogger name w).1 w)) as Hinv.
  { rewrite Hw. split; cbn; lia. }
  destruct (setup_logger_calls_invariant name calls w Hinv) as (_ & Hrefs & Hfile & Hcons).
  split_and!; try done.
  - intros level today rest ->. subst res r. cbn [setup_logger_calls].
    destruct (setup_logger name level today w) as [r1 w1] eqn:H1.
    pose proof (setup_logger_getLogger name name level today w) as Hg.
    pose proof (setup_logger_handlers name level today w) as Hh.
    rewrite H1 in Hg, Hh. cbn [fst snd] in Hg, Hh. cbv zeta in Hh. rewrite Hw in Hh.
    rewrite <- Hg in Hh.
    pose proof (setup_logger_calls_keep name rest w1 _ _ Hh) as Hkeep.
    rewrite Hg in Hkeep. by destruct (setup_logger_calls name rest w1).
  - intros w0 l1 d1 l2 d2 first second. subst first second.
    destruct (setup_logger_twice name l1 l2 d1 d2 w0) as [Href Hhs].
    rewrite (setup_logger_ref name l1 d1 w0). rewrite Hhs. done.
Qed.

Lemma setup_logger_sinks_at_most_once_witness :
  handlers_of (getLogger "app" initial_world).1 initial_world = [] ∧
  (length (filter is_file_sink (handlers_of (NamedRef "app")
     (setup_logger_calls "app"
        [(DEBUG, sample_date); (ERROR, sample_next_day)] initial_world).2)) ≤ 1)%nat.
Proof.
  split; [reflexivity|].
  exact (proj1 (proj2 (setup_logger_sinks_at_most_once "app"
    [(DEBUG, sample_date); (ERROR, sample_next_day)] initial_world eq_refl))).
Defined.

(** ** What the first call attaches *)

(** C5. When the entry of [name] has no sinks, [setup_logger name
    minLevel] leaves it with exactly two: first a file sink on the
    day's path with the plain formatter and threshold [minLevel], whose
    stream was opened in append mode (the file exists afterwards, empty
    if it was absent and with its old contents otherwise, and no other
    file changes), then a console sink with the colour formatter and
    threshold [minLevel]. *)
Theorem setup_logger_attaches_two_sinks (name : string) (minLevel : Z) (today : date)
    (w : World) :
  handlers_of (getLogger name w).1 w = [] →
  let r := (getLogger name w).1 in
  let w' := (setup_logger name minLevel today w).2 in
  let path := log_filename "./logs/" today in
  let fd := length (streams w) in
  ∃ fh ch,
    handlers_of r w' = [fh; ch] ∧
    handler_class fh = FileHandler_cls path "a" (Some "utf-8"%string) fd ∧
    handler_level fh = minLevel ∧ formatter fh = Some file_formatter ∧
    handler_class ch = StreamHandler_cls ∧
    handler_level ch = minLevel ∧ formatter ch = Some color_formatter ∧
    (∀ rec, Handler_format fh rec = Some (plain_line rec) ∧
            Handler_format ch rec =
              Some (default RESET_COLOR (LOG_COLORS !! levelname rec)
                    +:+ plain_line rec +:+ RESET_COLOR)) ∧
    streams w' !! fd = Some (mkOpenFile path "a" (Some "utf-8"%string)) ∧
    files w' !! path = Some (default ""%string (files w !! path)) ∧
    (∀ p, p ≠ path → files w' !! p = files w !! p).
Proof.
  intros Hw r w' path fd.
  exists (file_sink path fd minLevel), (console_sink minLevel).
  pose proof (setup_logger_handlers name minLevel today w) as Hh.
  cbv zeta in Hh. rewrite Hw in Hh.
  destruct (setup_logger_frame name minLevel today w) as (_ & Hfiles & Hstreams & _).
  fold w' path in Hfiles, Hstreams.
  split_and!; try done.
  - intros rec. split; [apply format_file_formatter | apply format_color_formatter].
  - rewrite Hstreams. apply list_lookup_middle. done.
  - rewrite Hfiles, files_lookup_after_open. by rewrite decide_True.
  - intros p Hp. rewrite Hfiles, files_lookup_after_open. by rewrite decide_False.
Qed.

Lemma setup_logger_attaches_two_sinks_witness :
  handlers_of (getLogger "app" initial_world).1 initial_world = [] ∧
  ∃ fh ch,
    handlers_of (NamedRef "app") world_app = [fh; ch] ∧
    handler_level fh = INFO ∧ handler_level ch = INFO.
Proof.
  split; [reflexivity|].
  destruct (setup_logger_attaches_two_sinks "app" INFO sample_date
    initial_world eq_refl) as (fh & ch & H1 & _ & H2 & _ & _ & H3 & _).
  exists fh, ch. split_and!; [exact H1 | exact H2 | exact H3].
Defined.

(** C6. Whatever [minLevel] is passed, the logger [setup_logger]
    returns has its own level set to DEBUG, and DEBUG is its effective
    level. *)
Theorem setup_logger_level_is_DEBUG (name : string) (minLevel : Z) (today : date)
    (w : World) :
  let res := setup_logger name minLevel today w in
  (∃ e, lookup_logger res.1 res.2 = Some e ∧ logger_level e = DEBUG) ∧
  getEffectiveLevel res.1 res.2 = DEBUG.
Proof.
  intros res. subst res. rewrite setup_logger_ref.
  destruct (setup_logger_entry name minLevel today w) as (e' & He' & Hl & _).
  split; [by exists e'|].
  unfold getEffectiveLevel, logger_chain. rewrite He'.
  cbn [from_option app]. rewrite filter_cons_True by (by rewrite Hl). done.
Qed.

(** ** The path of the day's file *)

(** C7. On every call [setup_logger] computes, and opens, the path
    [./logs/MM-DD-YYYY.log] of the current date: two zero-padded digits
    for the month, two for the day, four for the year. Any two distinct
    calendar dates give distinct paths. The digit-by-digit form needs a
    year of four digits; distinctness holds for all dates. *)
Theorem log_file_path_of_the_day (name : string) (level : Z) (today : date) (w : World) :
  valid_date today → 1000 ≤ year today →
  let path := "./logs/" +:+ spec_two_digits (month today) +:+ "-"
              +:+ spec_two_digits (day today) +:+ "-"
              +:+ spec_four_digits (year today) +:+ ".log" in
  log_filename "./logs/" today = path ∧
  streams (setup_logger name level today w).2 =
    streams w ++ [mkOpenFile path "a" (Some "utf-8"%string)] ∧
  ∀ other, valid_date other → other ≠ today →
    log_filename "./logs/" other ≠ log_filename "./logs/" today.
Proof.
  intros Hvalid Hyear path.
  assert (log_filename "./logs/" today = path) as Hpath
    by exact (log_filename_spec today Hvalid Hyear).
  split_and!.
  - done.
  - rewrite <- Hpath. apply setup_logger_frame.
  - intros other Hother Hne Heq. apply Hne. by apply (log_filename_inj "./logs/").
Qed.

Lemma log_file_path_of_the_day_witness :
  (valid_date sample_date ∧ 1000 ≤ year sample_date) ∧
  log_filename "./logs/" sample_date = "./logs/11-04-2026.log"%string.
Proof.
  assert (valid_date sample_date) as Hv by (vm_compute; intuition discriminate).
  assert (1000 ≤ year sample_date) as Hy by (vm_compute; discriminate).
  split; [by split|].
  exact (proj1 (log_file_path_of_the_day "app" DEBUG sample_date initial_world Hv Hy)).
Defined.

(** ** Streams opened by repeated calls *)

(** C8. The code at the claim's input: the [FileHandler] is constructed
    before the guard on [logger.handlers], so a second call for a name
    whose sinks are attached opens one more stream on the path of its
    date. That stream is not attached; the logger keeps the handlers,
    and so the stream, of the first call. *)
Theorem setup_logger_opens_stream_on_every_call (name : string) (l1 l2 : Z)
    (d1 d2 : date) (w : World) :
  let first := setup_logger name l1 d1 w in
  let second := setup_logger name l2 d2 first.2 in
  handlers_of first.1 first.2 ≠ [] ∧
  streams second.2 =
    streams first.2 ++ [mkOpenFile (log_filename "./logs/" d2) "a" (Some "utf-8"%string)] ∧
  length (streams second.2) = S (length (streams first.2)) ∧
  handlers_of first.1 second.2 = handlers_of first.1 first.2.
Proof.
  intros first second. subst first second.
  destruct (setup_logger_frame name l2 d2 (setup_logger name l1 d1 w).2)
    as (_ & _ & Hstreams & _).
  split_and!.
  - rewrite setup_logger_ref, setup_logger_handlers.
    by destruct (handlers_of _ w).
  - done.
  - rewrite Hstreams, length_app. cbn. lia.
  - rewrite setup_logger_ref. apply setup_logger_twice.
Qed.

(** ** Later calls *)

(** C9. When the logger of [name] carries the two sinks of an earlier
    construction, a later [setup_logger] call with any [minLevel] on
    any date leaves them as they are: same thresholds, same formatters,
    same target path and stream; the stream stays open on that path and
    no existing file changes. *)
Theorem later_call_keeps_sinks (name : string) (minLevel : Z) (today : date)
    (w : World) (path : string) (fd : nat) (level0 : Z) :
  handlers_of (getLogger name w).1 w = [file_sink path fd level0; console_sink level0] →
  streams w !! fd = Some (mkOpenFile path "a" (Some "utf-8"%string)) →
  let r := (getLogger name w).1 in
  let w' := (setup_logger name minLevel today w).2 in
  handlers_of r w' = [file_sink path fd level0; console_sink level0] ∧
  streams w' !! fd = Some (mkOpenFile path "a" (Some "utf-8"%string)) ∧
  ∀ p c, files w !! p = Some c → files w' !! p = Some c.
Proof.
  intros Hw Hfd r w'. subst r w'.
  destruct (setup_logger_frame name minLevel today w) as (_ & Hfiles & Hstreams & _).
  split_and!.
  - by rewrite setup_logger_handlers, Hw.
  - rewrite Hstreams. by apply lookup_app_l_Some.
  - intros p c Hp. rewrite Hfiles, files_lookup_after_open.
    case_decide as Heq; [|done]. subst p. by rewrite Hp.
Qed.

Lemma later_call_keeps_sinks_witness :
  (handlers_of (getLogger "app" world_app).1 world_app =
     [file_sink "./logs/11-04-2026.log" 0 INFO; console_sink INFO] ∧
   streams world_app !! 0%nat =
     Some (mkOpenFile "./logs/11-04-2026.log" "a" (Some "utf-8"%string))) ∧
  handlers_of (NamedRef "app") (setup_logger "app" ERROR sample_next_day world_app).2 =
    [file_sink "./logs/11-04-2026.log" 0 INFO; console_sink INFO].
Proof.
  assert (handlers_of (getLogger "app" world_app).1 world_app =
          [file_sink "./logs/11-04-2026.log" 0 INFO; console_sink INFO]) as Hw
    by (vm_compute; reflexivity).
  assert (streams world_app !! 0%nat =
          Some (mkOpenFile "./logs/11-04-2026.log" "a" (Some "utf-8"%string))) as Hfd
    by (vm_compute; reflexivity).
  split; [by split|].
  exact (proj1 (later_call_keeps_sinks "app" ERROR sample_next_day world_app
    "./logs/11-04-2026.log" 0 INFO Hw Hfd)).
Defined.

(** C10. The guard looks at whether the entry has any handler at all.
    When the entry of [name] already has one or more handlers, of
    whatever kind and origin, [setup_logger] attaches neither of its
    sinks: the handler list is unchanged, so a file sink or a console
    sink that was missing stays missing. *)
Theorem setup_logger_guard_is_any_handler (name : string) (minLevel : Z) (today : date)
    (w : World) :
  handlers_of (getLogger name w).1 w ≠ [] →
  let r := (getLogger name w).1 in
  let w' := (setup_logger name minLevel today w).2 in
  handlers_of r w' = handlers_of r w ∧
  filter is_file_sink (handlers_of r w') = filter is_file_sink (handlers_of r w) ∧
  filter is_console_sink (handlers_of r w') = filter is_console_sink (handlers_of r w).
Proof.
  intros Hw r w'. subst r w'.
  assert (handlers_of (getLogger name w).1 (setup_logger name minLevel today w).2
          = handlers_of (getLogger name w).1 w) as ->; [|done].
  rewrite setup_logger_handlers. by destruct (handlers_of _ w).
Qed.

Lemma setup_logger_guard_is_any_handler_witness :
  handlers_of (getLogger "app" world_foreign).1 world_foreign ≠ [] ∧
  handlers_of (NamedRef "app") (setup_logger "app" INFO sample_date world_foreign).2
    = [StreamHandler] ∧
  filter is_file_sink
    (handlers_of (NamedRef "app") (setup_logger "app" INFO sample_date world_foreign).2)
    = [].
Proof.
  assert (handlers_of (getLogger "app" world_foreign).1 world_foreign ≠ []) as Hw
    by (vm_compute; discriminate).
  split; [exact Hw|].
  destruct (setup_logger_guard_is_any_handler "app" INFO sample_date world_foreign Hw)
    as (H1 & H2 & _).
  split; [exact H1 | exact H2].
Defined.

(** ** Logging a record *)

Lemma getLevelName_severity (s : Severity) :
  getLevelName (severity_level s) = severity_name s.
Proof. by destruct s. Qed.

Lemma asctime_of_spec (t : struct_time) :
  valid_struct_time t → 1000 ≤ tm_year t ≤ 9999 → asctime_of t = spec_timestamp t.
Proof.
  intros (Hmon & Hday & Hhour & Hmin & Hsec) Hyear. unfold asctime_of, spec_timestamp.
  by rewrite !format_02d_two_digits, pretty_four_digits by lia.
Qed.

Lemma propagation_chain_no_handlers (ls : list Logger) :
  Forall (λ a, handlers a = []) ls → propagation_chain ls ≫= handlers = [].
Proof.
  induction 1 as [|a ls Ha _ IH]; [done|]. cbn [propagation_chain].
  rewrite bind_cons, Ha. destruct (propagate a); [done|]. done.
Qed.

Lemma setup_logger_effective_level (name : string) (level : Z) (today : date) (w : World) :
  getEffectiveLevel (getLogger name w).1 (setup_logger name level today w).2 = DEBUG.
Proof.
  destruct (setup_logger_entry name level today w) as (e' & He' & Hl & _).
  unfold getEffectiveLevel, logger_chain. rewrite He'.
  cbn [from_option app]. rewrite filter_cons_True by (by rewrite Hl). done.
Qed.

(** Below the logger's own level nothing is handed to any handler,
    whatever the thresholds of the sinks. *)
Lemma Logger_log_below_gate (r : LoggerRef) (level : Z) (m : string)
    (now : struct_time) (w : World) :
  level < getEffectiveLevel r w → Logger_log r level m now w = w.
Proof.
  intros Hlt. unfold Logger_log, isEnabledFor.
  case_bool_decide; [done|]. by rewrite bool_decide_false by lia.
Qed.

(** A record that passes the logger's gate, on a logger that carries
    the two sinks of [setup_logger] while no logger above it has any
    handler: the file gains one line, the console one coloured line. *)
Lemma Logger_log_two_sinks (r : LoggerRef) (e : Logger) (level : Z) (m : string)
    (now : struct_time) (w : World) (path : string) (fd : nat) (minLevel : Z) :
  lookup_logger r w = Some e →
  handlers e = [file_sink path fd minLevel; console_sink minLevel] →
  streams w !! fd = Some (mkOpenFile path "a" (Some "utf-8"%string)) →
  Forall (λ a, handlers a = []) (ancestors r w) →
  0 < level → getEffectiveLevel r w ≤ level → minLevel ≤ level →
  let rec := makeRecord (logger_name e) level m now in
  Logger_log r level m now w =
    mkWorld (dirs w)
      (<[path := default ""%string (files w !! path) +:+ plain_line rec +:+ LF]> (files w))
      (streams w)
      (stderr w +:+ (default RESET_COLOR (LOG_COLORS !! levelname rec)
                     +:+ plain_line rec +:+ RESET_COLOR) +:+ LF)
      (root w) (loggerDict w).
Proof.
  intros He Hh Hfd Hanc Hpos Hgate Hmin rec.
  unfold Logger_log, isEnabledFor.
  rewrite bool_decide_false, bool_decide_true by lia. rewrite He. fold rec.
  unfold callHandlers, logger_chain. rewrite He. cbn [from_option app propagation_chain].
  rewrite bind_cons, Hh.
  assert ((if propagate e then propagation_chain (ancestors r w) else []) ≫= handlers
          = []) as ->.
  { destruct (propagate e); [|done]. by apply propagation_chain_no_handlers. }
  cbn [app foldl]. unfold handle_with, file_sink, console_sink. cbn [handler_level].
  rewrite !bool_decide_true by done.
  unfold emit, Handler_format. cbn [formatter handler_class default from_option].
  rewrite format_file_formatter, format_color_formatter.
  unfold stream_write. rewrite Hfd. done.
Qed.

(** C4 as stated fails when a logger above this one carries sinks too:
    after [setup_logger("app")] and [setup_logger("app.db")] on one
    day, the entry of "app.db" had no sinks before its call and ERROR
    is above its file sink's threshold, yet a record logged on
    "app.db" passes to the file sinks of both loggers and the day's
    file, empty before, gains the line twice. *)
Lemma one_line_per_record_counterexample :
  handlers_of (getLogger "app.db" world_app).1 world_app = [] ∧
  (setup_logger "app.db" INFO sample_date world_app).1 = NamedRef "app.db" ∧
  INFO ≤ severity_level SevError ∧
  files world_app_db !! "./logs/11-04-2026.log" = Some ""%string ∧
  files (Logger_severity (NamedRef "app.db") SevError "boom" sample_time world_app_db)
    !! "./logs/11-04-2026.log"
    = Some ("2026-11-04 09:05:07 - app.db - ERROR - boom" +:+ LF +:+
            "2026-11-04 09:05:07 - app.db - ERROR - boom" +:+ LF) ∧
  files (Logger_severity (NamedRef "app.db") SevError "boom" sample_time world_app_db)
    !! "./logs/11-04-2026.log"
    ≠ Some ("" +:+ "2026-11-04 09:05:07 - app.db - ERROR - boom" +:+ LF).
Proof.
  split_and!.
  - vm_compute. reflexivity.
  - vm_compute. reflexivity.
  - vm_compute. discriminate.
  - vm_compute. reflexivity.
  - vm_compute. reflexivity.
  - vm_compute. discriminate.
Qed.

(** ** Logging only appends *)

Lemma string_app_assoc (a b c : string) : (a +:+ b) +:+ c = a +:+ b +:+ c.
Proof.
  induction a as [|x a IH]; [done|].
  change (String x ((a +:+ b) +:+ c) = String x (a +:+ b +:+ c)). by rewrite IH.
Qed.

Lemma only_appends_refl (w : World) : only_appends w w.
Proof.
  split_and!; try done.
  - intros p c Hp. exists ""%string. by rewrite string_app_nil_r.
  - exists ""%string. by rewrite string_app_nil_r.
Qed.

Lemma only_appends_trans (w1 w2 w3 : World) :
  only_appends w1 w2 → only_appends w2 w3 → only_appends w1 w3.
Proof.
  intros ((Hd & Hs & Hr & Hl) & Hf & (m & He)) ((Hd' & Hs' & Hr' & Hl') & Hf' & (m' & He')).
  split_and!.
  - unfold same_registry. split_and!; congruence.
  - intros p c Hp. destruct (Hf p c Hp) as [x Hx]. destruct (Hf' p _ Hx) as [y Hy].
    exists (x +:+ y). by rewrite Hy, string_app_assoc.
  - exists (m +:+ m'). by rewrite He', He, string_app_assoc.
Qed.

Lemma stream_write_only_appends (fd : nat) (s : string) (w : World) :
  only_appends w (stream_write fd s w).
Proof.
  unfold stream_write. destruct (streams w !! fd) as [f|]; [|apply only_appends_refl].
  split_and!; try done.
  - intros p c Hp. cbn. destruct (decide (p = of_path f)) as [->|Hne].
    + exists s. by rewrite lookup_insert_eq, Hp.
    + exists ""%string. by rewrite lookup_insert_ne, string_app_nil_r.
  - exists ""%string. by rewrite string_app_nil_r.
Qed.

Lemma stderr_write_only_appends (s : string) (w : World) :
  only_appends w (stderr_write s w).
Proof.
  split_and!; try done.
  - intros p c Hp. exists ""%string. by rewrite string_app_nil_r.
  - by exists s.
Qed.

Lemma emit_only_appends (h : Handler) (r : LogRecord) (w : World) :
  only_appends w (emit h r w).
Proof.
  unfold emit. destruct (Handler_format h r); [|apply only_appends_refl].
  destruct (handler_class h);
    [apply stream_write_only_appends | apply stderr_write_only_appends].
Qed.

Lemma handle_all_only_appends (r : LogRecord) (hs : list Handler) :
  ∀ w, only_appends w (foldl (handle_with r) w hs).
Proof.
  induction hs as [|h hs IH]; intros w; [apply only_appends_refl|].
  cbn [foldl]. eapply only_appends_trans; [|apply IH].
  unfold handle_with. case_bool_decide;
    [apply emit_only_appends | apply only_appends_refl].
Qed.

Lemma Logger_log_only_appends (r : LoggerRef) (level : Z) (m : string)
    (now : struct_time) (w : World) :
  only_appends w (Logger_log r level m now w).
Proof.
  unfold Logger_log. destruct (isEnabledFor r level w); [|apply only_appends_refl].
  destruct (lookup_logger r w) as [e|]; [|apply only_appends_refl].
  unfold callHandlers. destruct (propagation_chain _ ≫= handlers) as [|h hs].
  - case_bool_decide; [apply stderr_write_only_appends | apply only_appends_refl].
  - apply handle_all_only_appends.
Qed.

Lemma same_registry_lookup (w w' : World) (r : LoggerRef) :
  same_registry w w' → lookup_logger r w' = lookup_logger r w.
Proof. intros (_ & _ & Hr & Hl). destruct r; cbn; by rewrite ?Hr, ?Hl. Qed.

Lemma same_registry_ancestors (w w' : World) (r : LoggerRef) :
  same_registry w w' → ancestors r w' = ancestors r w.
Proof. intros (_ & _ & Hr & Hl). destruct r; cbn; by rewrite ?Hr, ?Hl. Qed.

(** ** Records on a logger that carries the two sinks *)

Lemma built_effective_level (r : LoggerRef) (name path : string) (fd : nat)
    (minLevel : Z) (w : World) :
  built r name path fd minLevel w → getEffectiveLevel r w = DEBUG.
Proof.
  intros ((e & He & _ & Hl & _) & _). unfold getEffectiveLevel, logger_chain.
  rewrite He. cbn [from_option app]. rewrite filter_cons_True by (by rewrite Hl). done.
Qed.

Lemma Logger_log_built (r : LoggerRef) (name path : string) (fd : nat)
    (minLevel level : Z) (m : string) (now : struct_time) (w : World) :
  built r name path fd minLevel w →
  Logger_log r level m now w =
    if passes minLevel level then
      mkWorld (dirs w)
        (<[path := default ""%string (files w !! path)
                   +:+ plain_line (makeRecord name level m now) +:+ LF]> (files w))
        (streams w)
        (stderr w +:+ color_wrap (makeRecord name level m now)
                        (plain_line (makeRecord name level m now)) +:+ LF)
        (root w) (loggerDict w)
    else w.
Proof.
  intros Hb. pose proof (built_effective_level _ _ _ _ _ _ Hb) as Heff.
  destruct Hb as ((e & He & Hn & Hl & Hh) & Hfd & Hanc). unfold passes.
  case_bool_decide as Hgate; cbn [andb].
  - assert (0 < level) by (unfold DEBUG in Hgate; lia).
    case_bool_decide as Hmin.
    + rewrite <- Hn. apply (Logger_log_two_sinks r e level m now w path fd minLevel);
        try done. by rewrite Heff.
    + unfold Logger_log, isEnabledFor.
      rewrite bool_decide_false, bool_decide_true by (rewrite ?Heff; lia). rewrite He.
      unfold callHandlers, logger_chain. rewrite He.
      cbn [from_option app propagation_chain]. rewrite bind_cons, Hh.
      assert ((if propagate e then propagation_chain (ancestors r w) else [])
                ≫= handlers = []) as ->.
      { destruct (propagate e); [|done]. by apply propagation_chain_no_handlers. }
      cbn [app foldl]. unfold handle_with, file_sink, console_sink. cbn [handler_level].
      by rewrite !bool_decide_false by done.
  - apply Logger_log_below_gate. rewrite Heff. lia.
Qed.

Lemma built_only_appends (r : LoggerRef) (name path : string) (fd : nat)
    (minLevel : Z) (w w' : World) :
  built r name path fd minLevel w → only_appends w w' → built r name path fd minLevel w'.
Proof.
  intros (He & Hfd & Hanc) (Hsame & _ & _). unfold built.
  rewrite (same_registry_lookup w w' r Hsame), (same_registry_ancestors w w' r Hsame).
  destruct Hsame as (_ & -> & _). done.
Qed.

Lemma setup_logger_built (name : string) (minLevel : Z) (today : date) (w : World) :
  handlers_of (getLogger name w).1 w = [] →
  Forall (λ a, handlers a = [])
    (ancestors (getLogger name w).1 (setup_logger name minLevel today w).2) →
  ∃ e, lookup_logger (getLogger name w).1 (setup_logger name minLevel today w).2 = Some e ∧
    built (getLogger name w).1 (logger_name e) (log_filename "./logs/" today)
      (length (streams w)) minLevel (setup_logger name minLevel today w).2.
Proof.
  intros Hw Hanc.
  destruct (setup_logger_entry name minLevel today w) as (e & He & Hl & Hh & _).
  cbv zeta in He, Hh. rewrite Hw in Hh.
  destruct (setup_logger_frame name minLevel today w) as (_ & _ & Hstreams & _).
  exists e. split; [done|]. split_and!; [by exists e| |done].
  rewrite Hstreams. by apply list_lookup_middle.
Qed.

Lemma log_records_cons (r : LoggerRef) (level : Z) (m : string) (now : struct_time)
    (recs : list (Z * string * struct_time)) (w : World) :
  log_records r ((level, m, now) :: recs) w
    = log_records r recs (Logger_log r level m now w).
Proof. reflexivity. Qed.

Lemma log_records_built (r : LoggerRef) (name path : string) (fd : nat) (minLevel : Z)
    (recs : list (Z * string * struct_time)) :
  ∀ w old, built r name path fd minLevel w → files w !! path = Some old →
    built r name path fd minLevel (log_records r recs w) ∧
    files (log_records r recs w) !! path
      = Some (old +:+ lines_of plain_wrap name minLevel recs) ∧
    (∀ p, p ≠ path → files (log_records r recs w) !! p = files w !! p) ∧
    stderr (log_records r recs w) = stderr w +:+ lines_of color_wrap name minLevel recs.
Proof.
  induction recs as [|[[level m] now] recs IH]; intros w old Hb Hold.
  - cbn. by rewrite !string_app_nil_r.
  - rewrite log_records_cons.
    pose proof (Logger_log_built r name path fd minLevel level m now w Hb) as Hlog.
    assert (built r name path fd minLevel (Logger_log r level m now w)) as Hb'.
    { eapply built_only_appends; [done|]. apply Logger_log_only_appends. }
    cbn [lines_of]. destruct (passes minLevel level).
    + assert (files (Logger_log r level m now w) !! path
              = Some (old +:+ plain_line (makeRecord name level m now) +:+ LF)) as Hold'.
      { rewrite Hlog. cbn [files]. by rewrite lookup_insert_eq, Hold. }
      destruct (IH _ _ Hb' Hold') as (Hb'' & Hfile & Hothers & Herr).
      split_and!; [done| | |].
      * rewrite Hfile. unfold plain_wrap. by rewrite !string_app_assoc.
      * intros p Hp. rewrite (Hothers p Hp), Hlog. cbn [files].
        by rewrite lookup_insert_ne.
      * rewrite Herr, Hlog. cbn [stderr]. by rewrite !string_app_assoc.
    + rewrite Hlog in *. destruct (IH _ _ Hb Hold) as (Hb'' & Hfile & Hothers & Herr).
      split_and!; try done.
Qed.

Lemma color_wrap_severity (s : Severity) (name m : string) (now : struct_time)
    (line : string) :
  color_wrap (makeRecord name (severity_level s) m now) line =
    String ESC match s with
               | SevDebug => "[37m" | SevInfo => "[36m" | SevWarning => "[33m"
               | SevError => "[31m" | SevCritical => "[41m"
               end +:+ line +:+ String ESC "[0m".
Proof.
  unfold color_wrap, makeRecord. cbn [levelname].
  by rewrite getLevelName_severity, LOG_COLORS_severity.
Qed.

Lemma passes_severity (minLevel : Z) (s : Severity) :
  minLevel ≤ severity_level s → passes minLevel (severity_level s) = true.
Proof.
  intros Hmin. unfold passes. rewrite (bool_decide_true (minLevel ≤ _)) by done.
  by destruct s.
Qed.

(** X1. A record of one of the five severities, at or above
    [minLevel], logged on a logger that [setup_logger] has just built
    on an entry without sinks and with no handler above it: the console
    gains the very line the file gains, between the colour code of the
    severity and the reset code, and then a newline. *)
Theorem console_shows_the_file_line_in_colour (name : string) (minLevel : Z)
    (today : date) (sev : Severity) (m : string) (now : struct_time) (w : World) :
  handlers_of (getLogger name w).1 w = [] →
  let r := (getLogger name w).1 in
  let w' := (setup_logger name minLevel today w).2 in
  Forall (λ a, handlers a = []) (ancestors r w') →
  minLevel ≤ severity_level sev →
  let w'' := Logger_severity r sev m now w' in
  ∃ e line,
    lookup_logger r w' = Some e ∧
    line = plain_line (makeRecord (logger_name e) (severity_level sev) m now) ∧
    files w'' !! log_filename "./logs/" today
      = Some (default ""%string (files w !! log_filename "./logs/" today)
              +:+ line +:+ LF) ∧
    stderr w'' =
      stderr w +:+ (String ESC match sev with
                               | SevDebug => "[37m" | SevInfo => "[36m"
                               | SevWarning => "[33m" | SevError => "[31m"
                               | SevCritical => "[41m"
                               end +:+ line +:+ String ESC "[0m") +:+ LF.
Proof.
  intros Hw r w' Hanc Hmin w''.
  destruct (setup_logger_built name minLevel today w Hw Hanc) as (e & He & Hb).
  destruct (setup_logger_frame name minLevel today w) as (_ & Hfiles & _ & Herr & _).
  exists e, (plain_line (makeRecord (logger_name e) (severity_level sev) m now)).
  split; [done|]. split; [done|].
  subst w''. unfold Logger_severity.
  rewrite (Logger_log_built _ _ _ _ _ _ m now _ Hb), passes_severity by done.
  cbn [files stderr]. split.
  - rewrite lookup_insert_eq. subst w'. rewrite Hfiles, files_lookup_after_open.
    by rewrite decide_True.
  - subst w'. by rewrite color_wrap_severity, Herr.
Qed.

Lemma console_shows_the_file_line_in_colour_witness :
  (handlers_of (getLogger "app" initial_world).1 initial_world = [] ∧
   Forall (λ a, handlers a = []) (ancestors (NamedRef "app") world_app) ∧
   INFO ≤ severity_level SevError) ∧
  stderr (Logger_severity (NamedRef "app") SevError "boom" sample_time world_app)
    = String ESC "[31m2026-11-04 09:05:07 - app - ERROR - boom" +:+ String ESC "[0m"
      +:+ LF.
Proof.
  assert (Forall (λ a, handlers a = []) (ancestors (NamedRef "app") world_app)) as Hanc
    by (vm_compute; repeat constructor).
  assert (INFO ≤ severity_level SevError) as Hmin by (vm_compute; discriminate).
  split; [by split_and!|].
  destruct (console_shows_the_file_line_in_colour "app" INFO sample_date SevError
    "boom" sample_time initial_world eq_refl Hanc Hmin) as (e & line & He & -> & _ & Herr).
  assert (e = mkLogger "app" DEBUG
            [file_sink "./logs/11-04-2026.log" 0 INFO; console_sink INFO] true) as ->.
  { apply (inj Some). rewrite <- He. vm_compute. reflexivity. }
  exact Herr.
Defined.

(** X2. On such a logger a record below [minLevel] reaches neither
    sink: the call leaves files, console and everything else as they
    were. *)
Theorem record_below_threshold_is_dropped (name : string) (minLevel : Z) (today : date)
    (level : Z) (m : string) (now : struct_time) (w : World) :
  handlers_of (getLogger name w).1 w = [] →
  let r := (getLogger name w).1 in
  let w' := (setup_logger name minLevel today w).2 in
  Forall (λ a, handlers a = []) (ancestors r w') →
  level < minLevel →
  Logger_log r level m now w' = w'.
Proof.
  intros Hw r w' Hanc Hlt.
  destruct (setup_logger_built name minLevel today w Hw Hanc) as (e & He & Hb).
  rewrite (Logger_log_built _ _ _ _ _ _ m now _ Hb). unfold passes.
  by rewrite (bool_decide_false (minLevel ≤ level)), andb_false_r by lia.
Qed.

Lemma record_below_threshold_is_dropped_witness :
  (handlers_of (getLogger "app" initial_world).1 initial_world = [] ∧
   Forall (λ a, handlers a = []) (ancestors (NamedRef "app") world_app) ∧
   DEBUG < INFO) ∧
  Logger_log (NamedRef "app") DEBUG "quiet" sample_time world_app = world_app.
Proof.
  assert (Forall (λ a, handlers a = []) (ancestors (NamedRef "app") world_app)) as Hanc
    by (vm_compute; repeat constructor).
  assert (DEBUG < INFO) as Hlt by (vm_compute; reflexivity).
  split; [by split_and!|].
  exact (record_below_threshold_is_dropped "app" INFO sample_date DEBUG "quiet"
    sample_time initial_world eq_refl Hanc Hlt).
Defined.

(** X3. The [level] argument cannot open the logger below DEBUG: the
    logger's own level is set to DEBUG on every call, so a record of a
    lower level logged on the returned logger changes nothing, however
    low [minLevel] is and whatever the world was. *)
Theorem record_below_DEBUG_is_dropped (name : string) (minLevel : Z) (today : date)
    (level : Z) (m : string) (now : struct_time) (w : World) :
  level < DEBUG →
  Logger_log (setup_logger name minLevel today w).1 level m now
    (setup_logger name minLevel today w).2
  = (setup_logger name minLevel today w).2.
Proof.
  intros Hlt. apply Logger_log_below_gate.
  by rewrite setup_logger_ref, setup_logger_effective_level.
Qed.

Lemma record_below_DEBUG_is_dropped_witness :
  5 < DEBUG ∧
  Logger_log (setup_logger "app" 1 sample_date initial_world).1 5 "trace" sample_time
    (setup_logger "app" 1 sample_date initial_world).2
  = (setup_logger "app" 1 sample_date initial_world).2.
Proof.
  assert (5 < DEBUG) as Hlt by (vm_compute; reflexivity).
  split; [exact Hlt|].
  exact (record_below_DEBUG_is_dropped "app" 1 sample_date 5 "trace" sample_time
    initial_world Hlt).
Defined.

(** X4. A call of [setup_logger] gives no other logger a handler and
    changes no other logger's handler list, own level or propagate
    flag (which loggers stand above another one can change: a new
    logger becomes the parent of the registered loggers below its
    name). The call writes nothing: the console and the contents of
    every existing file are as before; the only file that can appear
    is the one of the call's date; the directory [./logs/] is there
    afterwards and a further call adds no directory. *)
Theorem setup_logger_leaves_the_rest (name : string) (level : Z) (today : date)
    (w : World) :
  let w' := (setup_logger name level today w).2 in
  (∀ r', r' ≠ (getLogger name w).1 →
     handlers_of r' w' = handlers_of r' w ∧
     logger_level <$> lookup_logger r' w' = logger_level <$> lookup_logger r' w ∧
     propagate <$> lookup_logger r' w' = propagate <$> lookup_logger r' w) ∧
  stderr w' = stderr w ∧
  (∀ p c, files w !! p = Some c → files w' !! p = Some c) ∧
  (∀ p, p ≠ log_filename "./logs/" today → files w' !! p = files w !! p) ∧
  dirs w' = {["./logs/"%string]} ∪ dirs w ∧
  (∀ name2 level2 today2, dirs (setup_logger name2 level2 today2 w').2 = dirs w').
Proof.
  intros w'. subst w'.
  destruct (setup_logger_frame name level today w) as (Hdirs & Hfiles & _ & Herr & _).
  split_and!; try done.
  - intros r' Hr'. unfold handlers_of. by rewrite setup_logger_other.
  - intros p c Hp. rewrite Hfiles, files_lookup_after_open.
    case_decide as Heq; [|done]. subst p. by rewrite Hp.
  - intros p Hp. rewrite Hfiles, files_lookup_after_open. by rewrite decide_False.
  - intros name2 level2 today2.
    destruct (setup_logger_frame name2 level2 today2 (setup_logger name level today w).2)
      as (-> & _). by rewrite Hdirs, (assoc_L (∪)), union_idemp_L.
Qed.

(** X13. Records logged one after the other on a logger that
    [setup_logger] has just built (entry without sinks before, no
    handler above it): the file holds its former contents followed by
    one line for each record that is at or above both DEBUG and
    [minLevel], in the order of the calls, and the console gained the
    same lines in colour; no other file changed. *)
Theorem records_are_appended_in_order (name : string) (minLevel : Z) (today : date)
    (recs : list (Z * string * struct_time)) (w : World) :
  handlers_of (getLogger name w).1 w = [] →
  let r := (getLogger name w).1 in
  let w' := (setup_logger name minLevel today w).2 in
  Forall (λ a, handlers a = []) (ancestors r w') →
  let w'' := log_records r recs w' in
  let path := log_filename "./logs/" today in
  ∃ e, lookup_logger r w' = Some e ∧
    files w'' !! path = Some (default ""%string (files w !! path)
                              +:+ lines_of plain_wrap (logger_name e) minLevel recs) ∧
    stderr w'' = stderr w +:+ lines_of color_wrap (logger_name e) minLevel recs ∧
    (∀ p, p ≠ path → files w'' !! p = files w !! p).
Proof.
  intros Hw r w' Hanc w'' path. subst r w' w'' path.
  destruct (setup_logger_built name minLevel today w Hw Hanc) as (e & He & Hb).
  destruct (setup_logger_frame name minLevel today w) as (_ & Hfiles & _ & Herr & _).
  assert (files (setup_logger name minLevel today w).2 !! log_filename "./logs/" today
          = Some (default ""%string (files w !! log_filename "./logs/" today))) as Hold.
  { rewrite Hfiles, files_lookup_after_open. by rewrite decide_True. }
  destruct (log_records_built _ (logger_name e) _ _ minLevel recs _ _ Hb Hold)
    as (_ & Hfile & Hothers & Hcons).
  exists e. split_and!; try done.
  - by rewrite Hcons, Herr.
  - intros p Hp. rewrite (Hothers p Hp), Hfiles, files_lookup_after_open.
    by rewrite decide_False.
Qed.

Lemma records_are_appended_in_order_witness :
  (handlers_of (getLogger "app" initial_world).1 initial_world = [] ∧
   Forall (λ a, handlers a = []) (ancestors (NamedRef "app") world_app)) ∧
  files (log_records (NamedRef "app")
           [(ERROR, "one"%string, sample_time); (DEBUG, "two"%string, sample_time);
            (WARNING, "three"%string, sample_time)] world_app)
    !! "./logs/11-04-2026.log"
    = Some ("2026-11-04 09:05:07 - app - ERROR - one" +:+ LF +:+
            "2026-11-04 09:05:07 - app - WARNING - three" +:+ LF).
Proof.
  assert (Forall (λ a, handlers a = []) (ancestors (NamedRef "app") world_app)) as Hanc
    by (vm_compute; repeat constructor).
  split; [by split|].
  destruct (records_are_appended_in_order "app" INFO sample_date
    [(ERROR, "one"%string, sample_time); (DEBUG, "two"%string, sample_time);
     (WARNING, "three"%string, sample_time)] initial_world eq_refl Hanc)
    as (e & He & Hfile & _).
  assert (e = mkLogger "app" DEBUG
            [file_sink "./logs/11-04-2026.log" 0 INFO; console_sink INFO] true) as ->.
  { apply (inj Some). rewrite <- He. vm_compute. reflexivity. }
  exact Hfile.
Defined.

(** ** Runs of calls *)

Lemma run_cons (ev : Event) (evs : list Event) (w : World) :
  run (ev :: evs) w = run evs (step w ev).
Proof. reflexivity. Qed.

Lemma files_extended_refl (w : World) : files_extended w w.
Proof. apply only_appends_refl. Qed.

Lemma files_extended_trans (w1 w2 w3 : World) :
  files_extended w1 w2 → files_extended w2 w3 → files_extended w1 w3.
Proof.
  intros Hf Hf' p c Hp. destruct (Hf p c Hp) as [x Hx]. destruct (Hf' p _ Hx) as [y Hy].
  exists (x +:+ y). by rewrite Hy, string_app_assoc.
Qed.

Lemma setup_logger_files_extended (name : string) (level : Z) (today : date) (w : World) :
  files_extended w (setup_logger name level today w).2.
Proof.
  intros p c Hp. exists ""%string. rewrite string_app_nil_r.
  destruct (setup_logger_frame name level today w) as (_ & -> & _).
  rewrite files_lookup_after_open. case_decide as Heq; [|done]. subst p. by rewrite Hp.
Qed.

Lemma step_grows (w : World) (ev : Event) :
  files_extended w (step w ev) ∧
  (∃ more, stderr (step w ev) = stderr w +:+ more) ∧
  dirs w ⊆ dirs (step w ev) ∧
  streams (step w ev) =
    streams w ++ match ev with
                 | Setup _ _ today =>
                     [mkOpenFile (log_filename "./logs/" today) "a" (Some "utf-8"%string)]
                 | Log _ _ _ _ => []
                 end.
Proof.
  destruct ev as [name level today | r level m now]; cbn [step].
  - destruct (setup_logger_frame name level today w) as (Hd & _ & Hs & He & _).
    split_and!; [apply setup_logger_files_extended | | | done].
    + exists ""%string. by rewrite He, string_app_nil_r.
    + rewrite Hd. apply union_subseteq_r.
  - destruct (Logger_log_only_appends r level m now w) as ((Hd & Hs & _) & Hf & He).
    split_and!; [done | done | by rewrite Hd | by rewrite Hs, app_nil_r].
Qed.

(** X5. Along any run of [setup_logger] and logging calls, every
    [setup_logger] call opens one stream and no other call opens any:
    the streams that were open stay, in place, and the number of
    streams grows by the number of [setup_logger] calls, whether or
    not those calls attached their handlers. *)
Theorem one_stream_per_setup_call (evs : list Event) (w : World) :
  streams w `prefix_of` streams (run evs w) ∧
  length (streams (run evs w)) = (length (streams w) + length (filter is_setup evs))%nat.
Proof.
  revert w. induction evs as [|ev evs IH]; intros w.
  - cbn. split; [done|lia].
  - rewrite run_cons. destruct (IH (step w ev)) as [Hpre Hlen].
    destruct (step_grows w ev) as (_ & _ & _ & Hs). split.
    + etrans; [|exact Hpre]. rewrite Hs. by apply prefix_app_r.
    + rewrite Hlen, Hs, length_app.
      destruct ev;
        [rewrite filter_cons_True by done
        | rewrite filter_cons_False by (cbn; intros [])];
        cbn; lia.
Qed.

(** X14. Along any run of [setup_logger] and logging calls nothing is
    truncated or removed: every file that existed is still there with
    its former contents as a prefix, the console output only grew, and
    the directories that existed still exist. *)
Theorem runs_only_add (evs : list Event) (w : World) :
  (∀ p c, files w !! p = Some c → ∃ more, files (run evs w) !! p = Some (c +:+ more)) ∧
  (∃ more, stderr (run evs w) = stderr w +:+ more) ∧
  dirs w ⊆ dirs (run evs w).
Proof.
  revert w. induction evs as [|ev evs IH]; intros w.
  - split_and!; [apply files_extended_refl | | done].
    exists ""%string. by rewrite string_app_nil_r.
  - rewrite run_cons. destruct (IH (step w ev)) as (Hf & (m & He) & Hd).
    destruct (step_grows w ev) as (Hf' & (m' & He') & Hd' & _). split_and!.
    + by apply (files_extended_trans w (step w ev)).
    + exists (m' +:+ m). by rewrite He, He', string_app_assoc.
    + by etrans.
Qed.

(** ** An invariant of the registry *)

Lemma setup_logger_entry_fresh (name : string) (level : Z) (today : date) (w : World) :
  ¬ (name = ""%string ∨ name = logger_name (root w)) → loggerDict w !! name = None →
  ∃ hs, loggerDict (setup_logger name level today w).2 !! name
        = Some (mkLogger name DEBUG hs true).
Proof.
  intros Hroot Hnew. unfold setup_logger, getLogger. cbn.
  rewrite decide_False by done. rewrite Hnew. unfold handlers_of. cbn.
  rewrite lookup_alter_eq, lookup_insert_eq. cbn.
  rewrite !lookup_alter_eq, lookup_insert_eq. cbn. by eexists.
Qed.

Lemma setup_logger_sinks_wf (name : string) (level : Z) (today : date) (w : World) :
  sinks_wf w → sinks_wf (setup_logger name level today w).2.
Proof.
  intros (Hh & Hn & Hroot).
  destruct (setup_logger_frame name level today w) as (_ & Hfiles & Hstreams & _ & Hrn).
  destruct (setup_logger_entry name level today w) as (e' & He' & Hl & Hhs & Hsame).
  cbv zeta in He', Hhs, Hsame.
  assert (∀ p, is_Some (files w !! p) →
               is_Some (files (setup_logger name level today w).2 !! p)) as Hkeep.
  { intros p [c Hc]. rewrite Hfiles, files_lookup_after_open. case_decide; eauto. }
  split_and!.
  - intros r e Hr. destruct (decide (r = (getLogger name w).1)) as [->|Hne].
    + rewrite He' in Hr. injection Hr as <-.
      destruct (handlers_of (getLogger name w).1 w) as [|h hs] eqn:Hho.
      * right. eexists _, _, _. split; [exact Hhs|]. split.
        -- rewrite Hstreams. by apply list_lookup_middle.
        -- rewrite Hfiles, files_lookup_after_open. rewrite decide_True by done. eauto.
      * unfold handlers_of in Hho.
        destruct (lookup_logger (getLogger name w).1 w) as [e0|] eqn:He0; [|done].
        cbn in Hho. destruct (Hh _ _ He0) as [Hempty | (p & fd & l & Hhe0 & Hs & Hf)];
          [congruence|].
        right. exists p, fd, l. split; [congruence|]. split; [|by apply Hkeep].
        rewrite Hstreams. by apply lookup_app_l_Some.
    + rewrite setup_logger_other in Hr by done.
      destruct (Hh _ _ Hr) as [Hempty | (p & fd & l & Hhe0 & Hs & Hf)]; [by left|].
      right. exists p, fd, l. split; [done|]. split; [|by apply Hkeep].
      rewrite Hstreams. by apply lookup_app_l_Some.
  - intros n e Hne.
    change (lookup_logger (NamedRef n) (setup_logger name level today w).2 = Some e) in Hne.
    destruct (decide (NamedRef n = (getLogger name w).1)) as [Heq|Hneq].
    + rewrite <- Heq in He', Hsame. rewrite He' in Hne. injection Hne as <-.
      rewrite getLogger_ref in Heq. case_decide as Hr; [done|]. injection Heq as ->.
      destruct (loggerDict w !! name) as [e0|] eqn:He0.
      * destruct (Hsame e0 He0) as [-> ->]. destruct (Hn _ _ He0) as (? & _ & ?). done.
      * destruct (setup_logger_entry_fresh name level today w Hr He0) as [hs Hfresh].
        cbn in He'. rewrite Hfresh in He'. by injection He' as <-.
    + rewrite setup_logger_other in Hne by done. by apply Hn.
  - by rewrite Hrn.
Qed.

Lemma only_appends_sinks_wf (w w' : World) :
  sinks_wf w → only_appends w w' → sinks_wf w'.
Proof.
  intros (Hh & Hn & Hroot) (Hsame & Hf & _). split_and!.
  - intros r e Hr. rewrite (same_registry_lookup w w' r Hsame) in Hr.
    destruct (Hh _ _ Hr) as [Hempty | (p & fd & l & Hhe0 & Hs & [c Hc])]; [by left|].
    right. exists p, fd, l. destruct Hsame as (_ & -> & _). split_and!; [done..|].
    destruct (Hf p c Hc) as [more ->]. eauto.
  - intros n e Hne. destruct Hsame as (_ & _ & _ & Hl). rewrite Hl in Hne. by apply Hn.
  - destruct Hsame as (_ & _ & -> & _). done.
Qed.

Lemma run_sinks_wf (evs : list Event) : ∀ w, sinks_wf w → sinks_wf (run evs w).
Proof.
  induction evs as [|ev evs IH]; intros w Hw; [done|].
  rewrite run_cons. apply IH. destruct ev as [name level today | r level m now]; cbn.
  - by apply setup_logger_sinks_wf.
  - eapply only_appends_sinks_wf; [done|]. apply Logger_log_only_appends.
Qed.

(** X6. In every world a process reaches from its start by
    [setup_logger] and logging calls, in any order and for any names,
    each logger has either no handler or exactly one file sink and one
    console sink at one common threshold, with the plain and the
    colour formatter; the file sink's stream is open on the sink's
    path and that file exists; every named logger sits at DEBUG. *)
Theorem reachable_worlds_are_well_formed (evs : list Event) :
  sinks_wf (run evs initial_world) ∧
  ∀ r e, lookup_logger r (run evs initial_world) = Some e → at_most_once (handlers e).
Proof.
  assert (sinks_wf (run evs initial_world)) as Hwf.
  { apply run_sinks_wf. split_and!; [|done..]. intros [|n] e; cbn.
    - intros [= <-]. by left.
    - by rewrite lookup_empty. }
  split; [done|]. intros r e Hr. destruct Hwf as (Hh & _).
  destruct (Hh r e Hr) as [-> | (p & fd & l & -> & _)]; split; compute; lia.
Qed.

(** ** Dates and shared files *)

Lemma setup_logger_files_lookup (name : string) (level : Z) (today : date) (w : World)
    (p : string) :
  files (setup_logger name level today w).2 !! p =
    if decide (p = log_filename "./logs/" today)
    then Some (default ""%string (files w !! log_filename "./logs/" today))
    else files w !! p.
Proof.
  destruct (setup_logger_frame name level today w) as (_ & -> & _).
  apply files_lookup_after_open.
Qed.

Lemma setup_logger_streams (name : string) (level : Z) (today : date) (w : World) :
  streams (setup_logger name level today w).2 =
    streams w ++ [mkOpenFile (log_filename "./logs/" today) "a" (Some "utf-8"%string)].
Proof. apply setup_logger_frame. Qed.

(** X7. The path is fixed when the sinks are attached. After a first
    call on date [d1] and a later call for the same name on another
    date [d2], a record still goes to the file of [d1]; the later call
    has created the file of [d2] (empty, if it was not there) and the
    record does not touch it. *)
Theorem later_date_does_not_rotate (name : string) (l1 l2 : Z) (d1 d2 : date)
    (level : Z) (m : string) (now : struct_time) (w : World) :
  valid_date d1 → valid_date d2 → d1 ≠ d2 →
  handlers_of (getLogger name w).1 w = [] →
  let r := (getLogger name w).1 in
  let w2 := (setup_logger name l2 d2 (setup_logger name l1 d1 w).2).2 in
  Forall (λ a, handlers a = []) (ancestors r w2) →
  DEBUG ≤ level → l1 ≤ level →
  let w3 := Logger_log r level m now w2 in
  ∃ e, lookup_logger r w2 = Some e ∧
    files w3 !! log_filename "./logs/" d1
      = Some (default ""%string (files w !! log_filename "./logs/" d1)
              +:+ plain_line (makeRecord (logger_name e) level m now) +:+ LF) ∧
    files w3 !! log_filename "./logs/" d2
      = Some (default ""%string (files w !! log_filename "./logs/" d2)).
Proof.
  intros Hd1 Hd2 Hne Hw r w2 Hanc Hgate Hmin w3. subst r w2 w3.
  assert (log_filename "./logs/" d2 ≠ log_filename "./logs/" d1) as Hpath.
  { intros Heq. apply Hne. symmetry. by apply (log_filename_inj "./logs/"). }
  pose proof (setup_logger_handlers name l1 d1 w) as Hh1. cbv zeta in Hh1.
  rewrite Hw in Hh1.
  destruct (setup_logger_entry name l2 d2 (setup_logger name l1 d1 w).2)
    as (e & He & Hl & Hh & _).
  cbv zeta in He, Hh. rewrite setup_logger_getLogger in He, Hh. rewrite Hh1 in Hh.
  assert (built (getLogger name w).1 (logger_name e) (log_filename "./logs/" d1)
            (length (streams w)) l1
            (setup_logger name l2 d2 (setup_logger name l1 d1 w).2).2) as Hb.
  { split_and!; [by exists e| |done].
    rewrite !setup_logger_streams. apply lookup_app_l_Some. by apply list_lookup_middle. }
  exists e. split; [done|].
  rewrite (Logger_log_built _ _ _ _ _ _ m now _ Hb). unfold passes.
  rewrite !bool_decide_true by done. cbn [andb files]. split.
  - rewrite lookup_insert_eq, !setup_logger_files_lookup.
    rewrite decide_False, decide_True by done. done.
  - rewrite lookup_insert_ne by done. rewrite !setup_logger_files_lookup.
    rewrite decide_True by done. by rewrite decide_False by done.
Qed.

Lemma later_date_does_not_rotate_witness :
  (valid_date sample_date ∧ valid_date sample_next_day ∧ sample_date ≠ sample_next_day ∧
   handlers_of (getLogger "app" initial_world).1 initial_world = [] ∧
   Forall (λ a, handlers a = [])
     (ancestors (NamedRef "app") (setup_logger "app" INFO sample_next_day world_app).2) ∧
   DEBUG ≤ ERROR ∧ INFO ≤ ERROR) ∧
  files (Logger_log (NamedRef "app") ERROR "late" (StructTime 2026 11 5 0 0 1)
           (setup_logger "app" INFO sample_next_day world_app).2)
    !! "./logs/11-05-2026.log" = Some ""%string.
Proof.
  assert (valid_date sample_date) as H1 by (vm_compute; intuition discriminate).
  assert (valid_date sample_next_day) as H2 by (vm_compute; intuition discriminate).
  assert (sample_date ≠ sample_next_day) as H3 by discriminate.
  assert (Forall (λ a, handlers a = [])
    (ancestors (NamedRef "app") (setup_logger "app" INFO sample_next_day world_app).2))
    as H4 by (vm_compute; repeat constructor).
  assert (DEBUG ≤ ERROR) as H5 by (vm_compute; discriminate).
  assert (INFO ≤ ERROR) as H6 by (vm_compute; discriminate).
  split; [by split_and!|].
  destruct (later_date_does_not_rotate "app" INFO INFO sample_date sample_next_day
    ERROR "late" (StructTime 2026 11 5 0 0 1) initial_world H1 H2 H3 eq_refl H4 H5 H6)
    as (e & _ & _ & Hnew).
  exact Hnew.
Defined.

(** X8. Loggers of different names built on the same date write to the
    same file, each through its own stream: a record on the first and
    then a record on the second leave the file with both lines, in the
    order of the calls (no handler above either logger). *)
Theorem loggers_of_a_day_share_the_file (n1 n2 : string) (l1 l2 : Z) (today : date)
    (lv1 lv2 : Z) (m1 m2 : string) (t1 t2 : struct_time) (w : World) :
  (getLogger n1 w).1 ≠ (getLogger n2 w).1 →
  handlers_of (getLogger n1 w).1 w = [] → handlers_of (getLogger n2 w).1 w = [] →
  let r1 := (getLogger n1 w).1 in
  let r2 := (getLogger n2 w).1 in
  let w2 := (setup_logger n2 l2 today (setup_logger n1 l1 today w).2).2 in
  Forall (λ a, handlers a = []) (ancestors r1 w2) →
  Forall (λ a, handlers a = []) (ancestors r2 w2) →
  DEBUG ≤ lv1 → l1 ≤ lv1 → DEBUG ≤ lv2 → l2 ≤ lv2 →
  let w4 := Logger_log r2 lv2 m2 t2 (Logger_log r1 lv1 m1 t1 w2) in
  ∃ e1 e2,
    lookup_logger r1 w2 = Some e1 ∧ lookup_logger r2 w2 = Some e2 ∧
    handlers e1 = [file_sink (log_filename "./logs/" today) (length (streams w)) l1;
                   console_sink l1] ∧
    handlers e2 = [file_sink (log_filename "./logs/" today) (S (length (streams w))) l2;
                   console_sink l2] ∧
    files w4 !! log_filename "./logs/" today
      = Some (default ""%string (files w !! log_filename "./logs/" today)
              +:+ plain_line (makeRecord (logger_name e1) lv1 m1 t1) +:+ LF
              +:+ plain_line (makeRecord (logger_name e2) lv2 m2 t2) +:+ LF).
Proof.
  intros Hne Hw1 Hw2 r1 r2 w2 Hanc1 Hanc2 Hg1 Hmin1 Hg2 Hmin2 w4. subst r1 r2 w2 w4.
  set (path := log_filename "./logs/" today) in *.
  set (w1 := (setup_logger n1 l1 today w).2) in *.
  assert ((getLogger n2 w1).1 = (getLogger n2 w).1) as Hr2
    by apply setup_logger_getLogger.
  assert (handlers_of (getLogger n2 w1).1 w1 = []) as Hw2'.
  { rewrite Hr2. unfold handlers_of, w1. rewrite setup_logger_other by done. exact Hw2. }
  rewrite <- Hr2 in Hanc2.
  destruct (setup_logger_built n2 l2 today w1 Hw2' Hanc2) as (e2 & He2 & Hb2).
  rewrite Hr2 in He2, Hb2. fold path in Hb2.
  destruct (setup_logger_entry n1 l1 today w) as (e1 & He1 & Hl1 & Hh1 & _).
  cbv zeta in He1, Hh1. rewrite Hw1 in Hh1. fold w1 path in He1, Hh1.
  assert (lookup_logger (getLogger n1 w).1 (setup_logger n2 l2 today w1).2 = Some e1)
    as He1'.
  { rewrite setup_logger_other; [done|]. by rewrite Hr2. }
  assert (built (getLogger n1 w).1 (logger_name e1) path (length (streams w)) l1
            (setup_logger n2 l2 today w1).2) as Hb1.
  { split_and!; [by exists e1| |done].
    rewrite setup_logger_streams. apply lookup_app_l_Some.
    unfold w1. rewrite setup_logger_streams. by apply list_lookup_middle. }
  assert (length (streams w1) = S (length (streams w))) as Hlen.
  { unfold w1. rewrite setup_logger_streams, length_app. cbn. lia. }
  rewrite Hlen in Hb2.
  exists e1, e2. split_and!; [done | done | done | by destruct Hb2 as ((? & ? & ? & ? & ?) & _); simplify_eq |].
  pose proof (built_only_appends _ _ _ _ _ _ _ Hb2
                (Logger_log_only_appends (getLogger n1 w).1 lv1 m1 t1 _)) as Hb2'.
  rewrite (Logger_log_built _ _ _ _ _ _ m2 t2 _ Hb2').
  rewrite (Logger_log_built _ _ _ _ _ _ m1 t1 _ Hb1). unfold passes.
  rewrite !bool_decide_true by done. cbn [andb files].
  rewrite !lookup_insert_eq. cbn [default from_option id].
  rewrite setup_logger_files_lookup, decide_True by done.
  unfold w1. rewrite setup_logger_files_lookup, decide_True by done.
  cbn [default from_option id]. fold path. by rewrite !string_app_assoc.
Qed.

Lemma loggers_of_a_day_share_the_file_witness :
  ((getLogger "app" initial_world).1 ≠ (getLogger "jobs" initial_world).1 ∧
   handlers_of (getLogger "app" initial_world).1 initial_world = [] ∧
   handlers_of (getLogger "jobs" initial_world).1 initial_world = [] ∧
   Forall (λ a, handlers a = [])
     (ancestors (NamedRef "app") (setup_logger "jobs" INFO sample_date world_app).2) ∧
   Forall (λ a, handlers a = [])
     (ancestors (NamedRef "jobs") (setup_logger "jobs" INFO sample_date world_app).2) ∧
   DEBUG ≤ ERROR ∧ INFO ≤ ERROR) ∧
  files (Logger_log (NamedRef "jobs") ERROR "second" sample_time
           (Logger_log (NamedRef "app") ERROR "first" sample_time
              (setup_logger "jobs" INFO sample_date world_app).2))
    !! "./logs/11-04-2026.log"
    = Some ("2026-11-04 09:05:07 - app - ERROR - first" +:+ LF +:+
            "2026-11-04 09:05:07 - jobs - ERROR - second" +:+ LF).
Proof.
  assert ((getLogger "app" initial_world).1 ≠ (getLogger "jobs" initial_world).1) as H0
    by (vm_compute; discriminate).
  assert (Forall (λ a, handlers a = [])
    (ancestors (NamedRef "app") (setup_logger "jobs" INFO sample_date world_app).2))
    as H1 by (vm_compute; repeat constructor).
  assert (Forall (λ a, handlers a = [])
    (ancestors (NamedRef "jobs") (setup_logger "jobs" INFO sample_date world_app).2))
    as H2 by (vm_compute; repeat constructor).
  assert (DEBUG ≤ ERROR) as H3 by (vm_compute; discriminate).
  assert (INFO ≤ ERROR) as H4 by (vm_compute; discriminate).
  split; [by split_and!|].
  destruct (loggers_of_a_day_share_the_file "app" "jobs" INFO INFO sample_date
    ERROR ERROR "first" "second" sample_time sample_time initial_world
    H0 eq_refl eq_refl H1 H2 H3 H4 H3 H4) as (e1 & e2 & He1 & He2 & _ & _ & Hfile).
  assert (e1 = mkLogger "app" DEBUG
            [file_sink "./logs/11-04-2026.log" 0 INFO; console_sink INFO] true) as ->.
  { apply (inj Some). rewrite <- He1. vm_compute. reflexivity. }
  assert (e2 = mkLogger "jobs" DEBUG
            [file_sink "./logs/11-04-2026.log" 1 INFO; console_sink INFO] true) as ->.
  { apply (inj Some). rewrite <- He2. vm_compute. reflexivity. }
  exact Hfile.
Defined.

(** ** A logger below the root *)

Lemma Logger_log_through_root (n : string) (e : Logger) (level : Z) (m : string)
    (now : struct_time) (w : World) (path : string) (fd fd0 : nat) (l l0 : Z) :
  loggerDict w !! n = Some e →
  handlers e = [file_sink path fd l; console_sink l] → propagate e = true →
  ancestors (NamedRef n) w = [root w] →
  handlers (root w) = [file_sink path fd0 l0; console_sink l0] →
  streams w !! fd = Some (mkOpenFile path "a" (Some "utf-8"%string)) →
  streams w !! fd0 = Some (mkOpenFile path "a" (Some "utf-8"%string)) →
  0 < level → getEffectiveLevel (NamedRef n) w ≤ level → l ≤ level → l0 ≤ level →
  let rec := makeRecord (logger_name e) level m now in
  Logger_log (NamedRef n) level m now w =
    mkWorld (dirs w)
      (<[path := (default ""%string (files w !! path) +:+ plain_line rec +:+ LF)
                 +:+ plain_line rec +:+ LF]> (files w))
      (streams w)
      ((stderr w +:+ color_wrap rec (plain_line rec) +:+ LF)
       +:+ color_wrap rec (plain_line rec) +:+ LF)
      (root w) (loggerDict w).
Proof.
  intros He Hh Hprop Hanc Hroot Hfd Hfd0 Hpos Hgate Hl Hl0 rec.
  unfold Logger_log, isEnabledFor.
  rewrite bool_decide_false, bool_decide_true by lia. cbn [lookup_logger]. rewrite He.
  fold rec. unfold callHandlers, logger_chain. cbn [lookup_logger]. rewrite He, Hanc.
  cbn [from_option app propagation_chain]. rewrite Hprop.
  rewrite !bind_cons, Hh, Hroot. cbn [app mbind list_bind foldl].
  unfold handle_with, file_sink, console_sink. cbn [handler_level].
  rewrite !bool_decide_true by done.
  unfold emit, Handler_format. cbn [formatter handler_class default from_option id].
  rewrite format_file_formatter, format_color_formatter.
  unfold stream_write at 3. rewrite Hfd. unfold set_files, stderr_write.
  unfold stream_write. cbn [streams files of_path]. rewrite Hfd0. cbn [of_path].
  unfold set_files. cbn [streams files dirs stderr root loggerDict].
  rewrite lookup_insert_eq, insert_insert_eq. cbn [default from_option id].
  unfold color_wrap. by destruct (propagate (root w)).
Qed.

(** X9. After [setup_logger("")], which gives the root logger the two
    sinks, a record logged on a logger that a later [setup_logger] call
    of the same day built under the root passes through the sinks of
    both: the day's file gains the line twice and the console shows it
    twice (the record at or above DEBUG and both thresholds, the root
    being the only logger above). *)
Theorem sinks_on_the_root_double_every_line (n : string) (l0 l : Z) (today : date)
    (level : Z) (m : string) (now : struct_time) (w : World) :
  handlers (root w) = [] →
  ¬ (n = ""%string ∨ n = logger_name (root w)) → loggerDict w !! n = None →
  let w2 := (setup_logger n l today (setup_logger "" l0 today w).2).2 in
  ancestors (NamedRef n) w2 = [root w2] →
  DEBUG ≤ level → l0 ≤ level → l ≤ level →
  let w3 := Logger_log (NamedRef n) level m now w2 in
  let line := plain_line (makeRecord n level m now) in
  let coloured := default RESET_COLOR (LOG_COLORS !! getLevelName level)
                  +:+ line +:+ RESET_COLOR in
  files w3 !! log_filename "./logs/" today
    = Some (default ""%string (files w !! log_filename "./logs/" today)
            +:+ line +:+ LF +:+ line +:+ LF) ∧
  stderr w3 = stderr w +:+ coloured +:+ LF +:+ coloured +:+ LF.
Proof.
  intros Hroot Hn Hnew w2 Hanc Hgate Hl0 Hl w3 line coloured.
  subst w2 w3 line coloured.
  set (path := log_filename "./logs/" today) in *.
  set (w1 := (setup_logger "" l0 today w).2) in *.
  assert ((getLogger "" w).1 = RootRef) as Hr0.
  { rewrite getLogger_ref. by rewrite decide_True by (by left). }
  assert (handlers (root w1) = [file_sink path (length (streams w)) l0; console_sink l0])
    as Hroot1.
  { pose proof (setup_logger_handlers "" l0 today w) as Hh. cbv zeta in Hh.
    rewrite Hr0 in Hh. unfold handlers_of in Hh. cbn in Hh. by rewrite Hroot in Hh. }
  assert (logger_name (root w1) = logger_name (root w)) as Hrn by apply setup_logger_frame.
  assert (loggerDict w1 !! n = None) as Hnew1.
  { change (lookup_logger (NamedRef n) w1 = None). unfold w1.
    rewrite setup_logger_other; [done|]. by rewrite Hr0. }
  assert (¬ (n = ""%string ∨ n = logger_name (root w1))) as Hn1 by (by rewrite Hrn).
  assert ((getLogger n w1).1 = NamedRef n) as Hr.
  { rewrite getLogger_ref. by rewrite decide_False. }
  destruct (setup_logger_entry_fresh n l today w1 Hn1 Hnew1) as [hs Hfresh].
  assert (hs = [file_sink path (length (streams w1)) l; console_sink l]) as ->.
  { pose proof (setup_logger_handlers n l today w1) as Hh. cbv zeta in Hh.
    rewrite Hr in Hh. unfold handlers_of in Hh. cbn [lookup_logger] in Hh.
    by rewrite Hfresh, Hnew1 in Hh. }
  assert (root (setup_logger n l today w1).2 = root w1) as Hroot2.
  { assert (lookup_logger RootRef (setup_logger n l today w1).2 = lookup_logger RootRef w1)
      as Heq by (apply setup_logger_other; by rewrite Hr).
    by injection Heq. }
  assert (length (streams w1) = S (length (streams w))) as Hlen.
  { unfold w1. rewrite setup_logger_streams, length_app. cbn. lia. }
  pose proof (setup_logger_effective_level n l today w1) as Heff. rewrite Hr in Heff.
  rewrite (Logger_log_through_root n _ level m now _ path (length (streams w1))
             (length (streams w)) l l0 Hfresh); try done.
  - cbn [files stderr logger_name]. split.
    + rewrite lookup_insert_eq, setup_logger_files_lookup, decide_True by done.
      unfold w1. rewrite setup_logger_files_lookup, decide_True by done.
      cbn [default from_option id]. fold path. by rewrite !string_app_assoc.
    + destruct (setup_logger_frame n l today w1) as (_ & _ & _ & -> & _).
      destruct (setup_logger_frame "" l0 today w) as (_ & _ & _ & He & _).
      fold w1 in He. rewrite He. unfold color_wrap, makeRecord. cbn [levelname].
      by rewrite !string_app_assoc.
  - by rewrite Hroot2.
  - rewrite setup_logger_streams. by apply list_lookup_middle.
  - rewrite setup_logger_streams. apply lookup_app_l_Some.
    unfold w1. rewrite setup_logger_streams. by apply list_lookup_middle.
  - unfold DEBUG in Hgate. lia.
  - by rewrite Heff.
Qed.

Lemma sinks_on_the_root_double_every_line_witness :
  (handlers (root initial_world) = [] ∧
   ¬ ("app" = "" ∨ "app" = logger_name (root initial_world)) ∧
   loggerDict initial_world !! "app" = None ∧
   ancestors (NamedRef "app")
     (setup_logger "app" INFO sample_date
        (setup_logger "" INFO sample_date initial_world).2).2
   = [root (setup_logger "app" INFO sample_date
              (setup_logger "" INFO sample_date initial_world).2).2] ∧
   DEBUG ≤ ERROR ∧ INFO ≤ ERROR) ∧
  files (Logger_log (NamedRef "app") ERROR "boom" sample_time
          (setup_logger "app" INFO sample_date
             (setup_logger "" INFO sample_date initial_world).2).2)
    !! "./logs/11-04-2026.log"
    = Some ("2026-11-04 09:05:07 - app - ERROR - boom" +:+ LF +:+
            "2026-11-04 09:05:07 - app - ERROR - boom" +:+ LF).
Proof.
  assert (¬ ("app" = ""%string ∨ "app" = logger_name (root initial_world))) as H1
    by (intros [|]; discriminate).
  assert (ancestors (NamedRef "app")
     (setup_logger "app" INFO sample_date
        (setup_logger "" INFO sample_date initial_world).2).2
   = [root (setup_logger "app" INFO sample_date
              (setup_logger "" INFO sample_date initial_world).2).2]) as H2
    by (vm_compute; reflexivity).
  assert (DEBUG ≤ ERROR) as H3 by (vm_compute; discriminate).
  assert (INFO ≤ ERROR) as H4 by (vm_compute; discriminate).
  split; [by split_and!|].
  exact (proj1 (sinks_on_the_root_double_every_line "app" INFO INFO sample_date ERROR
    "boom" sample_time initial_world eq_refl H1 eq_refl H2 H3 H4 H4)).
Defined.

(** ** The colour table and the path, at their edges *)

(** X10. [LOG_COLORS] has an entry for the five level names and for
    nothing else (names are matched by case); the five codes differ
    from one another and none is the reset code, so on the console two
    records of different recognised severities never carry the same
    code and none looks like an unrecognised one. *)
Theorem LOG_COLORS_tells_severities_apart :
  (∀ n, is_Some (LOG_COLORS !! n) ↔ ∃ s, n = severity_name s) ∧
  (∀ s1 s2, LOG_COLORS !! severity_name s1 = LOG_COLORS !! severity_name s2 → s1 = s2) ∧
  (∀ s, LOG_COLORS !! severity_name s ≠ Some RESET_COLOR) ∧
  LOG_COLORS !! "debug"%string = None.
Proof.
  split_and!.
  - intros n. split.
    + intros Hn.
      destruct (decide (n = severity_name SevDebug)); [by eexists|].
      destruct (decide (n = severity_name SevInfo)); [by eexists|].
      destruct (decide (n = severity_name SevWarning)); [by eexists|].
      destruct (decide (n = severity_name SevError)); [by eexists|].
      destruct (decide (n = severity_name SevCritical)); [by eexists|].
      rewrite LOG_COLORS_unrecognised in Hn; [by destruct Hn|]. by intros [].
    + intros [s ->]. by rewrite LOG_COLORS_severity.
  - intros s1 s2. rewrite !LOG_COLORS_severity. by destruct s1, s2.
  - intros s. rewrite LOG_COLORS_severity. by destruct s.
  - apply LOG_COLORS_unrecognised. by intros [].
Qed.

Lemma pretty_year_length (y : Z) :
  1 ≤ y ≤ 9999 →
  (String.length (pretty y) ≤ 4)%nat ∧ (1000 ≤ y ↔ String.length (pretty y) = 4%nat).
Proof.
  intros Hy.
  pose proof (range_check
    (λ k, (String.length (pretty k) <=? 4)%nat
          && bool_decide (1000 ≤ k ↔ String.length (pretty k) = 4%nat)) 1 9999) as Hall.
  assert (1 ≤ y < 1 + 9999) as Hy' by lia.
  specialize (Hall ltac:(by vm_compute) y Hy').
  apply andb_true_iff in Hall as [H1 H2].
  apply Nat.leb_le in H1. by apply bool_decide_eq_true in H2.
Qed.

(** X11. The year is written as it is, without padding: for every date
    the path has 17 characters and the digits of the year, so it has
    the 21 characters of [./logs/MM-DD-YYYY.log] exactly when the year
    has four digits and is shorter for the years 1 to 999. Month and
    day always take two characters. *)
Theorem log_filename_length (d : date) :
  valid_date d →
  String.length (log_filename "./logs/" d) = (17 + String.length (pretty (year d)))%nat ∧
  (String.length (log_filename "./logs/" d) ≤ 21)%nat ∧
  (1000 ≤ year d ↔ String.length (log_filename "./logs/" d) = 21%nat).
Proof.
  intros Hv. pose proof Hv as (Hy & Hm & Hd)%valid_date_ranges.
  assert (String.length (log_filename "./logs/" d)
          = (17 + String.length (pretty (year d)))%nat) as Hlen.
  { unfold log_filename. rewrite !format_02d_two_digits by done.
    rewrite !string_app_length. cbn. lia. }
  destruct (pretty_year_length (year d)) as [Hle Hiff]; [lia|].
  split_and!; [done | lia |]. rewrite Hiff. lia.
Qed.

Lemma log_filename_length_witness :
  valid_date (Date 999 1 1) ∧
  log_filename "./logs/" (Date 999 1 1) = "./logs/01-01-999.log"%string ∧
  String.length (log_filename "./logs/" (Date 999 1 1)) = 20%nat.
Proof.
  assert (valid_date (Date 999 1 1)) as Hv by (vm_compute; intuition discriminate).
  split; [exact Hv|]. split; [vm_compute; reflexivity|].
  rewrite (proj1 (log_filename_length (Date 999 1 1) Hv)). vm_compute. reflexivity.
Defined.

(** ** The script *)

Lemma main_log_records (today : date) (t1 t2 t3 t4 t5 : struct_time) (w : World) :
  main today t1 t2 t3 t4 t5 w =
    log_records (setup_logger "my_app" DEBUG today w).1
      [(DEBUG, "이건 DEBUG 메시지 (회색)"%string, t1);
       (INFO, "이건 INFO 메시지 (청록색)"%string, t2);
       (WARNING, "이건 WARNING 메시지 (노란색)"%string, t3);
       (ERROR, "이건 ERROR 메시지 (빨간색)"%string, t4);
       (CRITICAL, "이건 CRITICAL 메시지 (빨간 배경)"%string, t5)]
      (setup_logger "my_app" DEBUG today w).2.
Proof. unfold main. by destruct (setup_logger "my_app" DEBUG today w). Qed.

(** X12. The script at the end of the module, run in a process whose
    root logger has no handler and which has no logger "my_app" yet:
    the default level lets all five records through, so the day's file
    gains five lines, DEBUG to CRITICAL in that order, each with the
    time of its call, and the console gains the same five lines in
    grey, cyan, yellow, red and red background. *)
Theorem main_writes_five_lines (today : date) (t1 t2 t3 t4 t5 : struct_time) (w : World) :
  logger_name (root w) = "root"%string → handlers (root w) = [] →
  loggerDict w !! "my_app" = None →
  let w' := main today t1 t2 t3 t4 t5 w in
  let l1 := asctime_of t1 +:+ " - my_app - DEBUG - 이건 DEBUG 메시지 (회색)" in
  let l2 := asctime_of t2 +:+ " - my_app - INFO - 이건 INFO 메시지 (청록색)" in
  let l3 := asctime_of t3 +:+ " - my_app - WARNING - 이건 WARNING 메시지 (노란색)" in
  let l4 := asctime_of t4 +:+ " - my_app - ERROR - 이건 ERROR 메시지 (빨간색)" in
  let l5 := asctime_of t5 +:+ " - my_app - CRITICAL - 이건 CRITICAL 메시지 (빨간 배경)" in
  files w' !! log_filename "./logs/" today
    = Some (default ""%string (files w !! log_filename "./logs/" today)
            +:+ l1 +:+ LF +:+ l2 +:+ LF +:+ l3 +:+ LF +:+ l4 +:+ LF +:+ l5 +:+ LF) ∧
  stderr w'
    = stderr w
      +:+ String ESC "[37m" +:+ l1 +:+ String ESC "[0m" +:+ LF
      +:+ String ESC "[36m" +:+ l2 +:+ String ESC "[0m" +:+ LF
      +:+ String ESC "[33m" +:+ l3 +:+ String ESC "[0m" +:+ LF
      +:+ String ESC "[31m" +:+ l4 +:+ String ESC "[0m" +:+ LF
      +:+ String ESC "[41m" +:+ l5 +:+ String ESC "[0m" +:+ LF ∧
  handlers_of (NamedRef "my_app") w'
    = [file_sink (log_filename "./logs/" today) (length (streams w)) DEBUG;
       console_sink DEBUG].
Proof.
  intros Hrn Hroot Hnew w' l1 l2 l3 l4 l5. subst w' l1 l2 l3 l4 l5.
  rewrite main_log_records.
  assert (¬ ("my_app" = ""%string ∨ "my_app" = logger_name (root w))) as Hn.
  { rewrite Hrn. intros [|]; discriminate. }
  assert ((getLogger "my_app" w).1 = NamedRef "my_app") as Hr.
  { rewrite getLogger_ref. by rewrite decide_False. }
  rewrite setup_logger_ref, Hr.
  assert (handlers_of (getLogger "my_app" w).1 w = []) as Hw.
  { rewrite Hr. unfold handlers_of. cbn [lookup_logger]. by rewrite Hnew. }
  assert (root (setup_logger "my_app" DEBUG today w).2 = root w) as Hroot'.
  { assert (lookup_logger RootRef (setup_logger "my_app" DEBUG today w).2
            = lookup_logger RootRef w) as Heq
      by (apply setup_logger_other; by rewrite Hr).
    by injection Heq. }
  assert (Forall (λ a, handlers a = [])
            (ancestors (getLogger "my_app" w).1 (setup_logger "my_app" DEBUG today w).2))
    as Hanc.
  { rewrite Hr. unfold ancestors.
    change (parent_names "my_app") with (@nil string). cbn [omap list_omap app].
    rewrite Hroot'. by repeat constructor. }
  destruct (setup_logger_built "my_app" DEBUG today w Hw Hanc) as (e & He & Hb).
  rewrite Hr in He, Hb.
  destruct (setup_logger_entry_fresh "my_app" DEBUG today w Hn Hnew) as [hs Hfresh].
  cbn [lookup_logger] in He. rewrite Hfresh in He. injection He as <-.
  cbn [logger_name] in Hb.
  assert (files (setup_logger "my_app" DEBUG today w).2 !! log_filename "./logs/" today
          = Some (default ""%string (files w !! log_filename "./logs/" today))) as Hold.
  { by rewrite setup_logger_files_lookup, decide_True. }
  destruct (log_records_built _ _ _ _ _
    [(DEBUG, "이건 DEBUG 메시지 (회색)"%string, t1);
     (INFO, "이건 INFO 메시지 (청록색)"%string, t2);
     (WARNING, "이건 WARNING 메시지 (노란색)"%string, t3);
     (ERROR, "이건 ERROR 메시지 (빨간색)"%string, t4);
     (CRITICAL, "이건 CRITICAL 메시지 (빨간 배경)"%string, t5)] _ _ Hb Hold)
    as (Hb' & Hfile & _ & Herr).
  split_and!.
  - rewrite Hfile. f_equal. f_equal.
    unfold lines_of, plain_wrap, plain_line, makeRecord.
    cbn [created rec_name levelname msg].
    change (passes DEBUG DEBUG) with true. change (passes DEBUG INFO) with true.
    change (passes DEBUG WARNING) with true. change (passes DEBUG ERROR) with true.
    change (passes DEBUG CRITICAL) with true.
    change (getLevelName DEBUG) with "DEBUG"%string.
    change (getLevelName INFO) with "INFO"%string.
    change (getLevelName WARNING) with "WARNING"%string.
    change (getLevelName ERROR) with "ERROR"%string.
    change (getLevelName CRITICAL) with "CRITICAL"%string.
    rewrite !string_app_assoc. reflexivity.
  - rewrite Herr.
    destruct (setup_logger_frame "my_app" DEBUG today w) as (_ & _ & _ & -> & _).
    f_equal.
    unfold lines_of, color_wrap, plain_wrap, plain_line, makeRecord.
    cbn [created rec_name levelname msg].
    change (passes DEBUG DEBUG) with true. change (passes DEBUG INFO) with true.
    change (passes DEBUG WARNING) with true. change (passes DEBUG ERROR) with true.
    change (passes DEBUG CRITICAL) with true.
    change (getLevelName DEBUG) with "DEBUG"%string.
    change (getLevelName INFO) with "INFO"%string.
    change (getLevelName WARNING) with "WARNING"%string.
    change (getLevelName ERROR) with "ERROR"%string.
    change (getLevelName CRITICAL) with "CRITICAL"%string.
    pose proof (LOG_COLORS_severity SevDebug) as Hc1.
    pose proof (LOG_COLORS_severity SevInfo) as Hc2.
    pose proof (LOG_COLORS_severity SevWarning) as Hc3.
    pose proof (LOG_COLORS_severity SevError) as Hc4.
    pose proof (LOG_COLORS_severity SevCritical) as Hc5.
    cbn [severity_name] in Hc1, Hc2, Hc3, Hc4, Hc5. rewrite Hc1, Hc2, Hc3, Hc4, Hc5.
    cbn [default from_option id]. unfold RESET_COLOR.
    rewrite !string_app_assoc. reflexivity.
  - destruct Hb' as ((e' & He' & _ & _ & Hh) & _).
    unfold handlers_of. by rewrite He'.
Qed.

Lemma main_writes_five_lines_witness :
  (logger_name (root initial_world) = "root"%string ∧ handlers (root initial_world) = [] ∧
   loggerDict initial_world !! "my_app" = None) ∧
  handlers_of (NamedRef "my_app")
    (main sample_date sample_time sample_time sample_time sample_time sample_time
       initial_world)
  = [file_sink "./logs/11-04-2026.log" 0 DEBUG; console_sink DEBUG].
Proof.
  split; [by split_and!|].
  exact (proj2 (proj2 (main_writes_five_lines sample_date sample_time sample_time
    sample_time sample_time sample_time initial_world eq_refl eq_refl eq_refl))).
Defined.

(** ** A logger that other code configured first *)

Lemma handle_all_console_files (r : LogRecord) (hs : list Handler) :
  Forall (λ h, is_console_sink h) hs →
  ∀ w, files (foldl (handle_with r) w hs) = files w.
Proof.
  induction 1 as [|h hs Hh _ IH]; intros w; [done|].
  cbn [foldl]. rewrite IH. unfold handle_with, emit. case_bool_decide; [|done].
  destruct (Handler_format h r); [|done].
  unfold is_console_sink in Hh. by destruct (handler_class h).
Qed.

Lemma propagation_chain_Forall (P : Logger → Prop) (ls : list Logger) :
  Forall P ls → Forall P (propagation_chain ls).
Proof.
  induction 1 as [|l ls Hl _ IH]; [done|]. cbn. constructor; [done|].
  by destruct (propagate l).
Qed.

Lemma Logger_log_console_files (r : LoggerRef) (level : Z) (m : string)
    (now : struct_time) (w : World) :
  Forall (λ l, Forall (λ h, is_console_sink h) (handlers l)) (logger_chain r w) →
  files (Logger_log r level m now w) = files w.
Proof.
  intros Hall. unfold Logger_log. destruct (isEnabledFor r level w); [|done].
  destruct (lookup_logger r w) as [e|]; [|done]. unfold callHandlers.
  assert (Forall (λ h, is_console_sink h)
            (propagation_chain (logger_chain r w) ≫= handlers)) as Hhs.
  { apply propagation_chain_Forall in Hall. revert Hall.
    generalize (propagation_chain (logger_chain r w)).
    induction 1 as [|l ls Hl _ IH]; [constructor|].
    rewrite bind_cons. by apply Forall_app. }
  destruct (propagation_chain (logger_chain r w) ≫= handlers) as [|h hs] eqn:Heq.
  - by case_bool_decide.
  - by apply handle_all_console_files.
Qed.

(** X15. When other code has already given the logger handlers and
    none of them writes to a file, [setup_logger] attaches nothing
    (its guard sees the handlers), yet it still creates the day's file:
    the file is there afterwards, and no record logged on that logger
    ever reaches it or any other file (no handler above the logger). *)
Theorem foreign_console_handler_means_no_file_output (name : string) (minLevel : Z)
    (today : date) (recs : list (Z * string * struct_time)) (w : World) :
  handlers_of (getLogger name w).1 w ≠ [] →
  Forall (λ h, is_console_sink h) (handlers_of (getLogger name w).1 w) →
  let r := (getLogger name w).1 in
  let w' := (setup_logger name minLevel today w).2 in
  Forall (λ a, handlers a = []) (ancestors r w') →
  files w' !! log_filename "./logs/" today
    = Some (default ""%string (files w !! log_filename "./logs/" today)) ∧
  files (log_records r recs w') = files w'.
Proof.
  intros Hne Hcons r w' Hanc. subst r w'.
  split; [by rewrite setup_logger_files_lookup, decide_True|].
  pose proof (setup_logger_handlers name minLevel today w) as Hh. cbv zeta in Hh.
  assert (handlers_of (getLogger name w).1 (setup_logger name minLevel today w).2
          = handlers_of (getLogger name w).1 w) as Hsame.
  { rewrite Hh. by destruct (handlers_of _ w). }
  rewrite <- Hsame in Hcons. clear Hh Hsame Hne.
  revert Hcons Hanc. generalize (setup_logger name minLevel today w).2.
  induction recs as [|[[level m] now] recs IH]; intros w0 Hcons Hanc; [done|].
  rewrite log_records_cons.
  pose proof (Logger_log_only_appends (getLogger name w).1 level m now w0)
    as (Hreg & _ & _).
  assert (files (Logger_log (getLogger name w).1 level m now w0) = files w0) as Hfiles.
  { apply Logger_log_console_files. unfold logger_chain. apply Forall_app. split.
    - unfold handlers_of in Hcons. destruct (lookup_logger _ w0); cbn; by constructor.
    - eapply Forall_impl; [exact Hanc|]. intros a ->. constructor. }
  rewrite IH, Hfiles; [done| |].
  - unfold handlers_of. by rewrite (same_registry_lookup _ _ _ Hreg).
  - by rewrite (same_registry_ancestors _ _ _ Hreg).
Qed.

Lemma foreign_console_handler_means_no_file_output_witness :
  (handlers_of (getLogger "app" world_foreign).1 world_foreign ≠ [] ∧
   Forall (λ h, is_console_sink h) (handlers_of (getLogger "app" world_foreign).1
                                      world_foreign) ∧
   Forall (λ a, handlers a = [])
     (ancestors (NamedRef "app")
        (setup_logger "app" INFO sample_date world_foreign).2)) ∧
  files (log_records (NamedRef "app") [(ERROR, "boom"%string, sample_time)]
           (setup_logger "app" INFO sample_date world_foreign).2)
    !! "./logs/11-04-2026.log" = Some ""%string.
Proof.
  assert (handlers_of (getLogger "app" world_foreign).1 world_foreign ≠ []) as H1
    by (vm_compute; discriminate).
  assert (Forall (λ h, is_console_sink h)
            (handlers_of (getLogger "app" world_foreign).1 world_foreign)) as H2
    by (vm_compute; repeat constructor).
  assert (Forall (λ a, handlers a = [])
     (ancestors (NamedRef "app")
        (setup_logger "app" INFO sample_date world_foreign).2)) as H3
    by (vm_compute; repeat constructor).
  split; [by split_and!|].
  destruct (foreign_console_handler_means_no_file_output "app" INFO sample_date
    [(ERROR, "boom"%string, sample_time)] world_foreign H1 H2 H3) as [Hfile Hsame].
  change (getLogger "app" world_foreign).1 with (NamedRef "app") in Hsame.
  rewrite Hsame. exact Hfile.
Defined.

(** ** One line for each record, at any later time *)

Lemma handle_with_keeps_path (rec : LogRecord) (path : string) (h : Handler) (w : World) :
  (handler_level h ≤ levelno rec → ¬ writes_to path (streams w) h) →
  files (handle_with rec w h) !! path = files w !! path ∧
  streams (handle_with rec w h) = streams w.
Proof.
  intros Hh. unfold handle_with. case_bool_decide as Hlevel; [|done].
  specialize (Hh Hlevel). unfold emit. destruct (Handler_format h rec); [|done].
  unfold writes_to in Hh. destruct (handler_class h) as [bf md enc fd|]; [|done].
  unfold stream_write. destruct (streams w !! fd) as [f|] eqn:Hf; [|done].
  cbn. split; [|done]. rewrite lookup_insert_ne; [done|].
  intros Heq. apply Hh. by exists f.
Qed.

Lemma handle_all_keeps_path (rec : LogRecord) (path : string) (hs : list Handler) :
  ∀ w, Forall (λ h, handler_level h ≤ levelno rec → ¬ writes_to path (streams w) h) hs →
    files (foldl (handle_with rec) w hs) !! path = files w !! path.
Proof.
  induction hs as [|h hs IH]; intros w Hall; [done|].
  apply Forall_cons in Hall as [Hh Hall]. cbn [foldl].
  destruct (handle_with_keeps_path rec path h w Hh) as [Hfile Hstreams].
  rewrite IH; [done|]. by rewrite Hstreams.
Qed.

(** A record that passes the gate and the file sink's threshold, on a
    logger that carries the two sinks, when no other handler it reaches
    writes to the sink's file: the file gains the record's line. *)
Lemma Logger_log_attached (r : LoggerRef) (e : Logger) (path : string) (fd : nat)
    (minLevel level : Z) (m : string) (now : struct_time) (w : World) :
  attached r path fd minLevel w → lookup_logger r w = Some e →
  DEBUG ≤ level → minLevel ≤ level →
  Forall (λ h, handler_level h ≤ level → ¬ writes_to path (streams w) h)
    (handlers_above r w) →
  files (Logger_log r level m now w) !! path
    = Some (default ""%string (files w !! path)
            +:+ plain_line (makeRecord (logger_name e) level m now) +:+ LF).
Proof.
  intros ((e' & He' & Hl & Hh) & Hfd & _) He Hgate Hmin Habove.
  rewrite He in He'. injection He' as <-.
  assert (getEffectiveLevel r w = DEBUG) as Heff.
  { unfold getEffectiveLevel, logger_chain. rewrite He. cbn [from_option app].
    rewrite filter_cons_True by (by rewrite Hl). done. }
  unfold handlers_above in Habove. rewrite He in Habove.
  unfold Logger_log, isEnabledFor.
  rewrite bool_decide_false, bool_decide_true by (rewrite ?Heff; unfold DEBUG in *; lia).
  rewrite He. unfold callHandlers, logger_chain. rewrite He.
  cbn [from_option app propagation_chain]. rewrite bind_cons, Hh.
  assert ((if propagate e then propagation_chain (ancestors r w) else []) ≫= handlers
          = if propagate e then propagation_chain (ancestors r w) ≫= handlers else [])
    as -> by (by destruct (propagate e)).
  cbn [app foldl]. unfold handle_with at 2 3. unfold file_sink, console_sink.
  cbn [handler_level levelno makeRecord]. rewrite !bool_decide_true by done.
  unfold emit, Handler_format. cbn [formatter handler_class default from_option id].
  rewrite format_file_formatter, format_color_formatter.
  unfold stream_write. rewrite Hfd. cbn [of_path].
  rewrite handle_all_keeps_path; [cbn; by rewrite lookup_insert_eq|].
  cbn [streams set_files stderr_write]. done.
Qed.

Lemma setup_logger_attached (name : string) (minLevel : Z) (today : date) (w : World) :
  handlers_of (getLogger name w).1 w = [] →
  attached (getLogger name w).1 (log_filename "./logs/" today) (length (streams w))
    minLevel (setup_logger name minLevel today w).2.
Proof.
  intros Hw.
  destruct (setup_logger_entry name minLevel today w) as (e & He & Hl & Hh & _).
  cbv zeta in He, Hh. rewrite Hw in Hh. split_and!.
  - by exists e.
  - rewrite setup_logger_streams. by apply list_lookup_middle.
  - rewrite setup_logger_files_lookup, decide_True by done. eauto.
Qed.

Lemma step_attached (r : LoggerRef) (path : string) (fd : nat) (minLevel : Z)
    (w : World) (ev : Event) :
  attached r path fd minLevel w → attached r path fd minLevel (step w ev).
Proof.
  intros ((e & He & Hl & Hh) & Hfd & Hfile).
  destruct ev as [n l d | r' l m now]; cbn [step].
  - split_and!.
    + destruct (decide (r = (getLogger n w).1)) as [->|Hne].
      * destruct (setup_logger_entry n l d w) as (e' & He' & Hl' & Hh' & _).
        cbv zeta in He', Hh'. unfold handlers_of in Hh'. rewrite He in Hh'.
        cbn [from_option] in Hh'. rewrite Hh in Hh'. by exists e'.
      * exists e. by rewrite setup_logger_other.
    + rewrite setup_logger_streams. by apply lookup_app_l_Some.
    + destruct Hfile as [c Hc]. rewrite setup_logger_files_lookup.
      case_decide; eauto.
  - destruct (Logger_log_only_appends r' l m now w) as (Hreg & Hext & _). split_and!.
    + exists e. by rewrite (same_registry_lookup _ _ _ Hreg).
    + destruct Hreg as (_ & -> & _). done.
    + destruct Hfile as [c Hc]. destruct (Hext _ _ Hc) as [more ->]. eauto.
Qed.

Lemma run_attached (r : LoggerRef) (path : string) (fd : nat) (minLevel : Z)
    (evs : list Event) :
  ∀ w, attached r path fd minLevel w → attached r path fd minLevel (run evs w).
Proof.
  induction evs as [|ev evs IH]; intros w Hw; [done|].
  rewrite run_cons. by apply IH, step_attached.
Qed.

(** C4, as the code has it. [setup_logger] builds a logger on an entry
    without sinks; later, after any further [setup_logger] and logging
    calls, a record of one of the five severities is logged on it, at
    or above the file sink's threshold. If no other handler that the
    record reaches (a handler, with a threshold at or below the
    severity, of a logger it propagates to) writes to the sink's file,
    exactly one line [<timestamp> - <name> - <level> - <message>] and a
    newline are appended to the log file of the date on which the
    sinks were attached, after the file's contents before the call.
    The time stamp reads YYYY-MM-DD HH:MM:SS for a year of four
    digits. *)
Theorem one_line_per_record (name : string) (minLevel : Z) (today : date)
    (evs : list Event) (sev : Severity) (m : string) (now : struct_time) (w0 : World) :
  handlers_of (getLogger name w0).1 w0 = [] →
  let r := (getLogger name w0).1 in
  let path := log_filename "./logs/" today in
  let w := run evs (setup_logger name minLevel today w0).2 in
  Forall (λ h, handler_level h ≤ severity_level sev → ¬ writes_to path (streams w) h)
    (handlers_above r w) →
  minLevel ≤ severity_level sev →
  valid_struct_time now → 1000 ≤ tm_year now ≤ 9999 →
  ∃ e old,
    lookup_logger r w = Some e ∧ files w !! path = Some old ∧
    let line := spec_timestamp now +:+ " - " +:+ logger_name e +:+ " - "
                +:+ severity_name sev +:+ " - " +:+ m in
    files (Logger_severity r sev m now w) !! path = Some (old +:+ line +:+ LF).
Proof.
  intros Hw r path w Habove Hmin Hnow Hyear.
  pose proof (run_attached r path _ minLevel evs _
                (setup_logger_attached name minLevel today w0 Hw)) as Hatt.
  fold w in Hatt. pose proof Hatt as ((e & He & _) & _ & [old Hold]).
  exists e, old. split; [done|]. split; [done|]. cbv zeta.
  unfold Logger_severity.
  rewrite (Logger_log_attached r e path _ minLevel _ m now w Hatt He); try done.
  - rewrite Hold. cbn [default from_option id].
    unfold plain_line, makeRecord. cbn [created rec_name levelname msg].
    by rewrite getLevelName_severity, asctime_of_spec.
  - by destruct sev.
Qed.

Lemma one_line_per_record_witness :
  (handlers_of (getLogger "app" initial_world).1 initial_world = [] ∧
   Forall (λ h, handler_level h ≤ severity_level SevError →
                ¬ writes_to "./logs/11-04-2026.log" (streams world_later) h)
     (handlers_above (NamedRef "app") world_later) ∧
   INFO ≤ severity_level SevError ∧
   valid_struct_time sample_time ∧ 1000 ≤ tm_year sample_time ≤ 9999) ∧
  files world_later !! "./logs/11-04-2026.log"
    = Some ("2026-11-04 09:05:07 - jobs - ERROR - first" +:+ LF) ∧
  files (Logger_severity (NamedRef "app") SevError "boom" sample_time world_later)
    !! "./logs/11-04-2026.log"
    = Some (("2026-11-04 09:05:07 - jobs - ERROR - first" +:+ LF) +:+
            "2026-11-04 09:05:07 - app - ERROR - boom" +:+ LF).
Proof.
  assert (INFO ≤ severity_level SevError) as Hmin by (vm_compute; discriminate).
  assert (valid_struct_time sample_time) as Hnow by (vm_compute; intuition discriminate).
  assert (1000 ≤ tm_year sample_time ≤ 9999) as Hyear
    by (vm_compute; intuition discriminate).
  split.
  { split_and!; [reflexivity | | done..].
    assert (handlers_above (NamedRef "app") world_later = []) as ->
      by (vm_compute; reflexivity).
    constructor. }
  pose proof (one_line_per_record "app" INFO sample_date
    [Setup "jobs" INFO sample_date; Log (NamedRef "jobs") ERROR "first" sample_time]
    SevError "boom" sample_time initial_world eq_refl) as Hthm.
  cbv zeta in Hthm.
  match type of Hthm with
  | Forall _ ?l → _ =>
      assert (l = []) as Habove by (vm_compute; reflexivity);
      rewrite Habove in Hthm; specialize (Hthm (Forall_nil_2 _))
  end.
  destruct (Hthm Hmin Hnow Hyear) as (e & old & He & Hold & Hline).
  assert (e = mkLogger "app" DEBUG
            [file_sink "./logs/11-04-2026.log" 0 INFO; console_sink INFO] true) as ->.
  { apply (inj Some). rewrite <- He. vm_compute. reflexivity. }
  assert (old = "2026-11-04 09:05:07 - jobs - ERROR - first" +:+ LF) as ->.
  { apply (inj Some). rewrite <- Hold. vm_compute. reflexivity. }
  revert Hold Hline. vm_compute. intros Hold Hline. split; assumption.
Defined.
